(** * Conversation orchestrator and onboarding completion: a shallow embedding

  The development follows the Claude wrapper of the agent application
  ([chat], [executeTool], [continueWithToolResult], [shouldEscalate],
  [streamChat]) and the persistence helper [completeOnboarding] of the
  onboarding template.  The prompt, the keys and the texts of the
  context are modelled as sequences of code units below U+0100; the
  texts that [shouldEscalate] lower-cases are sequences of UTF-16 code
  units of any value.  Objects that callers own live in a store and are
  passed by reference; the model backend, the tool implementations and
  the language built-ins [String], [JSON.stringify] on values of type
  [unknown] and [toLowerCase] are parameters of the development. *)

From Stdlib Require Import Ascii String List ZArith Lia Bool.
From stdpp Require Import base option list gmap strings.

Local Open Scope string_scope.
Local Open Scope list_scope.

(** ** Strings *)

Module JsString.

(** [s.includes(search)]: [search] occurs in [s] at some position. *)
Fixpoint includes (s search : string) : bool :=
  String.prefix search s
  || match s with
     | EmptyString => false
     | String _ s' => includes s' search
     end.

(** [s.slice(n)] for [0 <= n]. *)
Fixpoint slice (n : nat) (s : string) : string :=
  match n, s with
  | O, _ => s
  | S _, EmptyString => EmptyString
  | S n', String _ s' => slice n' s'
  end.

Definition isBrace (c : ascii) : bool :=
  Ascii.eqb c "{" || Ascii.eqb c "}".

Fixpoint every (p : ascii -> bool) (s : string) : bool :=
  match s with
  | EmptyString => true
  | String c s' => p c && every p s'
  end.

End JsString.

(** ** Text of any code units, and its lower-casing *)

Module Utf16.

(** A string as the sequence of its UTF-16 code units. *)
Definition ustring := list N.

(** The text of a literal whose code units lie below U+0100. *)
Definition units (s : string) : ustring :=
  map N_of_ascii (list_ascii_of_string s).

(** The code units of [search] stand at the beginning of [s]. *)
Fixpoint startsWith (s search : ustring) : bool :=
  match search, s with
  | [], _ => true
  | _ :: _, [] => false
  | a :: search', b :: s' => N.eqb a b && startsWith s' search'
  end.

(** [s.includes(search)]: the code units of [search] occur in [s] at
    some position. *)
Fixpoint includes (s search : ustring) : bool :=
  startsWith s search
  || match s with
     | [] => false
     | _ :: s' => includes s' search
     end.

Definition latin1 (u : N) : Prop := (u < 256)%N.

(** What [toLowerCase] does to a code unit of a text that has code
    units below U+0100 only: A-Z and the capitals U+00C0..U+00DE (the
    multiplication sign U+00D7 apart) move up by 32. *)
Definition lowerLatin1 (u : N) : N :=
  if ((65 <=? u) && (u <=? 90) || (192 <=? u) && (u <=? 222) && negb (u =? 215))%N
  then (u + 32)%N
  else u.

(** [String.prototype.toLowerCase], a built-in of the language, with
    the two facts about it that the proofs use.  The built-in follows
    the Unicode case mappings, which look at the neighbours of a
    character (a capital sigma at the end of a word has a lower-case
    form of its own) and can change the length of a text; it never
    maps a character to nothing, and on a text whose code units all lie
    below U+0100 it works code unit by code unit. *)
Record LowerCase := mkLowerCase {
  lower : ustring -> ustring;
  lower_nonempty : forall s, lower s = [] -> s = [];
  lower_latin1 : forall s, Forall latin1 s -> lower s = map lowerLatin1 s
}.

(** The specification's wording, [case-insensitive], on code units
    below U+0100: [small] is [capital] in lower case. *)
Definition smallOf (small capital : N) : bool :=
  ((small =? capital + 32)
   && ((65 <=? capital) && (capital <=? 90)
       || (192 <=? capital) && (capital <=? 214)
       || (216 <=? capital) && (capital <=? 222)))%N.

(** Two code units that are the same letter, in the same case or not. *)
Definition sameLetter (a b : N) : bool :=
  N.eqb a b || smallOf a b || smallOf b a.

(** Two texts that are equal up to the case of their letters. *)
Definition sameText (u t : ustring) : Prop :=
  Forall2 (fun a b => sameLetter a b = true) u t.

End Utf16.

(** ** Regular-expression replacement, literal fragment *)

Module RegExp.
Import JsString.

(** The syntax characters of the pattern grammar. *)
Definition isSyntaxCharacter (c : ascii) : bool :=
  existsb (Ascii.eqb c)
          (list_ascii_of_string "^$\.*+?()[]{}|").

(** A key without syntax characters: interpolated into
    [\{\{key\}\}] it yields a pattern whose only match is the literal
    text of the placeholder.  Other keys are regular-expression source
    of their own (or make [new RegExp] throw) and lie outside this
    model. *)
Definition plainKey (key : string) : bool :=
  every (fun c => negb (isSyntaxCharacter c)) key.

(** The text matched by [new RegExp(`\\{\\{${key}\\}\\}`, "g")] for a
    plain key. *)
Definition placeholder (key : string) : string :=
  "{{" +:+ key +:+ "}}".

(** GetSubstitution for a match without capture groups: in the
    replacement text [$$] stands for a dollar sign, [$&] for the match,
    [$`] for the text before it and [$'] for the text after it; every
    other character, a lone [$] included, stands for itself. *)
Fixpoint getSubstitution (matched before after template : string) : string :=
  match template with
  | EmptyString => EmptyString
  | String c tl =>
      if Ascii.eqb c "$" then
        match tl with
        | EmptyString => String c EmptyString
        | String d rest =>
            if Ascii.eqb d "$" then
              String "$" (getSubstitution matched before after rest)
            else if Ascii.eqb d "&" then
              matched +:+ getSubstitution matched before after rest
            else if Ascii.eqb d "`" then
              before +:+ getSubstitution matched before after rest
            else if Ascii.eqb d "'" then
              after +:+ getSubstitution matched before after rest
            else String c (getSubstitution matched before after tl)
        end
      else String c (getSubstitution matched before after tl)
  end.

(** [s.replace(re, template)] for a global pattern that matches exactly
    the non-empty text [pat]: matches are found left to right and do not
    overlap.  [before] is the part of the subject already passed, [skip]
    counts the code units of the current match still to be passed. *)
Fixpoint replaceScan (pat template before : string) (skip : nat)
         (s : string) : string :=
  match s with
  | EmptyString => EmptyString
  | String c s' =>
      match skip with
      | S n => replaceScan pat template (before +:+ String c "") n s'
      | O =>
          if String.prefix pat s then
            getSubstitution pat before (slice (String.length pat) s) template
            +:+ replaceScan pat template (before +:+ String c "")
                            (String.length pat - 1) s'
          else
            String c (replaceScan pat template (before +:+ String c "") 0 s')
      end
  end.

(** [s.replace(new RegExp(`\\{\\{${key}\\}\\}`, "g"), template)];
    [None] when the key is outside the literal fragment. *)
Definition replacePlaceholder (key template s : string) : option string :=
  if plainKey key
  then Some (replaceScan (placeholder key) template "" 0 s)
  else None.

End RegExp.

(** ** Templates as the specification reads them *)

Module Template.
Import JsString RegExp.

(** A template is literal text interleaved with placeholders. *)
Inductive Token :=
| Lit (text : string)
| Slot (key : string).

Definition showToken (tok : Token) : string :=
  match tok with
  | Lit text => text
  | Slot key => placeholder key
  end.

(** The text of a template. *)
Fixpoint show (toks : list Token) : string :=
  match toks with
  | [] => EmptyString
  | tok :: rest => showToken tok +:+ show rest
  end.

(** The value a context holds for a key, if any. *)
Fixpoint valueOf (entries : list (string * string)) (key : string) : option string :=
  match entries with
  | [] => None
  | (k, v) :: rest => if String.eqb k key then Some v else valueOf rest key
  end.

(** Follows the specification's wording: a placeholder whose key the
    context holds is substituted by the context's value, any other
    placeholder is left verbatim, and literal text is kept. *)
Definition specSubstituteToken (entries : list (string * string)) (tok : Token) : string :=
  match tok with
  | Lit text => text
  | Slot key =>
      match valueOf entries key with
      | Some v => v
      | None => placeholder key
      end
  end.

Fixpoint specSubstitute (entries : list (string * string)) (toks : list Token) : string :=
  match toks with
  | [] => EmptyString
  | tok :: rest => specSubstituteToken entries tok +:+ specSubstitute entries rest
  end.

(** Every opening brace of the text is followed, within the text, by a
    code unit other than an opening brace. *)
Fixpoint loneBraces (s : string) : bool :=
  match s with
  | EmptyString => true
  | String c s' =>
      (negb (Ascii.eqb c "{")
       || match s' with
          | EmptyString => false
          | String d _ => negb (Ascii.eqb d "{")
          end)
      && loneBraces s'
  end.

Definition noDollar (s : string) : bool :=
  every (fun c => negb (Ascii.eqb c "$")) s.

Definition braceFree (s : string) : bool :=
  every (fun c => negb (isBrace c)) s.

Definition wellFormedToken (tok : Token) : bool :=
  match tok with
  | Lit text => loneBraces text
  | Slot key => braceFree key
  end.

(** The template after one context entry has been applied to it. *)
Definition bindSlot (key value : string) (tok : Token) : Token :=
  match tok with
  | Lit text => Lit text
  | Slot k => if String.eqb k key then Lit value else Slot k
  end.

(** A replacement text that stands for itself and cannot complete a
    placeholder. *)
Definition inertValue (v : string) : bool :=
  noDollar v && loneBraces v.

End Template.

(** ** The conversation orchestrator *)

Module Agent.
Section Orchestrator.

(** Values of TypeScript type [unknown] that the wrapper only converts
    or forwards, and the values a failing call throws. *)
Variables Value Err : Type.

(** [String(value)] and [JSON.stringify(value)]; the latter yields
    [undefined] for some values.  [Value] ranges over the values on
    which both conversions return: a cyclic structure or a BigInt, on
    which [JSON.stringify] throws, is outside the model. *)
Variable ToString : Value -> string.
Variable JSON_stringify : Value -> option string.

(** *** Data *)

Inductive Role := user | assistant.

(** Content parts built by [continueWithToolResult]. *)
Inductive ContentPart :=
| ToolUsePart (id name : string) (input : Value)
| ToolResultPart (tool_use_id : string) (content : option string).

(** The interface declares [content: string]; the continuation passes
    arrays of parts through the same field. *)
Inductive MessageContent :=
| Text (s : string)
| Parts (ps : list ContentPart).

Record ChatMessage := mkChatMessage {
  role : Role;
  content : MessageContent
}.

Record ToolCall := mkToolCall {
  tc_id : string;
  tc_name : string;
  tc_input : Value
}.

Record AgentResponse := mkAgentResponse {
  ar_content : string;
  ar_toolCalls : option (list ToolCall);
  ar_stopReason : option string
}.

(** The members of the type that [AgentResponse] declares for
    [stopReason]. *)
Definition declaredStopReasons : list string :=
  ["end_turn"; "tool_use"; "max_tokens"].

Record AgentConfig := mkAgentConfig {
  systemPrompt : string;
  model : string;
  escalationTriggers : list Utf16.ustring
}.

Record ToolDefinition := mkToolDefinition {
  td_name : string;
  td_description : string;
  td_input_schema : Value
}.

(** The imports from [@/agent/config]. *)
Variable agentConfig : AgentConfig.
Variable toolDefinitions : list ToolDefinition.

(** *** The backend interface *)

Record Tool := mkTool {
  name : string;
  description : string;
  input_schema : Value
}.

Record Request := mkRequest {
  rq_model : string;
  rq_max_tokens : Z;
  rq_system : string;
  rq_messages : list ChatMessage;
  rq_tools : option (list Tool)
}.

Inductive ContentBlock :=
| TextBlock (text : string)
| ToolUseBlock (id name : string) (input : Value)
| ThinkingBlock (thinking signature : string)
| RedactedThinkingBlock (data : string).

(** [stop_reason] is a string or [null]; the backend's own type has
    more members than the wrapper's [stopReason]. *)
Record Response := mkResponse {
  rs_content : list ContentBlock;
  rs_stop_reason : option string
}.

Inductive Delta :=
| TextDelta (text : string)
| InputJsonDelta (partial_json : string)
| ThinkingDelta (thinking : string).

Inductive StreamEvent :=
| MessageStart
| ContentBlockStart (index : nat)
| ContentBlockDelta (index : nat) (delta : Delta)
| ContentBlockStop (index : nat)
| MessageDelta
| MessageStop.

(** [anthropic.messages.create]: a response, or a thrown value. *)
Variable messages_create : Request -> Response + Err.

(** [anthropic.messages.stream]: the events the stream emits and, when
    it breaks off, the value it throws after them. *)
Variable messages_stream : Request -> list StreamEvent * option Err.

(** [executeToolCall] of [@/agent/tools]. *)
Variable executeToolCall : string -> Value -> Value + Err.

(** *** Effects *)

Inductive Event :=
| Create (req : Request)
| Stream (req : Request)
| ConsoleError (label : string) (error : Err)
| ToolRun (tool : string) (input : Value).

(** The requests among the events, in the order of their submission. *)
Definition requestOf (ev : Event) : option Request :=
  match ev with
  | Create req => Some req
  | Stream req => Some req
  | _ => None
  end.

Definition requestsOf (events : list Event) : list Request :=
  omap requestOf events.

Definition isBackendCall (ev : Event) : bool :=
  match ev with
  | Create _ => true
  | Stream _ => true
  | _ => false
  end.

Definition isToolRun (ev : Event) : bool :=
  match ev with
  | ToolRun _ _ => true
  | _ => false
  end.

Definition loc := nat.

(** The store holds the message arrays and the context objects that
    are reachable from the caller; a context object is the list of its
    own entries in the order of [Object.entries]. *)
Record State := mkState {
  arrays : gmap loc (list ChatMessage);
  objects : gmap loc (list (string * Value));
  trace : list Event
}.

Inductive Outcome (A : Type) :=
| Returned (a : A)
| Thrown (e : Err)
| OutOfModel.
Arguments Returned {A} a.
Arguments Thrown {A} e.
Arguments OutOfModel {A}.

Definition Prog (A : Type) := State -> Outcome A * State.

Definition ret {A} (a : A) : Prog A := fun st => (Returned a, st).
Definition throw {A} (e : Err) : Prog A := fun st => (Thrown e, st).
Definition outOfModel {A} : Prog A := fun st => (OutOfModel, st).

Definition bind {A B} (m : Prog A) (k : A -> Prog B) : Prog B :=
  fun st =>
    match m st with
    | (Returned a, st') => k a st'
    | (Thrown e, st') => (Thrown e, st')
    | (OutOfModel, st') => (OutOfModel, st')
    end.

Definition tryCatch {A} (body : Prog A) (handler : Err -> Prog A) : Prog A :=
  fun st =>
    match body st with
    | (Thrown e, st') => handler e st'
    | r => r
    end.

Local Notation "x <- m ;; k" := (bind m (fun x => k))
  (at level 100, m at next level, right associativity).

Definition emit (ev : Event) : Prog unit :=
  fun st => (Returned tt, mkState (arrays st) (objects st) (trace st ++ [ev])).

Definition liftOption {A} (o : option A) : Prog A :=
  match o with
  | Some a => ret a
  | None => outOfModel
  end.

(** Reading through a reference; a reference that the store does not
    hold is outside the model. *)
Definition readArray (l : loc) : Prog (list ChatMessage) :=
  fun st => liftOption (arrays st !! l) st.

Definition Object_entries (l : loc) : Prog (list (string * Value)) :=
  fun st => liftOption (objects st !! l) st.

(** A fresh array, as an array literal creates it. *)
Definition newArray (ms : list ChatMessage) : Prog loc :=
  fun st =>
    let l := fresh (dom (arrays st)) in
    (Returned l, mkState (<[l := ms]> (arrays st)) (objects st) (trace st)).

Definition anthropic_messages_create (req : Request) : Prog Response :=
  _ <- emit (Create req) ;;
  match messages_create req with
  | inl response => ret response
  | inr e => throw e
  end.

Definition console_error (label : string) (error : Err) : Prog unit :=
  emit (ConsoleError label error).

(** *** The wrapper *)

(** Convert our tool definitions to Anthropic format. *)
Definition tools : list Tool :=
  map (fun tool => mkTool (td_name tool) (td_description tool) (td_input_schema tool))
      toolDefinitions.

(** The [forEach] over the entries: each entry replaces its
    placeholder in the prompt the earlier entries have produced.  [chat]
    and [streamChat] carry the same statements for it. *)
Fixpoint replaceEntries (entries : list (string * Value)) (systemPrompt : string)
  : option string :=
  match entries with
  | [] => Some systemPrompt
  | (key, value) :: rest =>
      match RegExp.replacePlaceholder key (ToString value) systemPrompt with
      | Some systemPrompt' => replaceEntries rest systemPrompt'
      | None => None
      end
  end.

Definition buildSystemPrompt (clientContext : option loc) : Prog string :=
  match clientContext with
  | Some ctx =>
      entries <- Object_entries ctx ;;
      liftOption (replaceEntries entries (systemPrompt agentConfig))
  | None => ret (systemPrompt agentConfig)
  end.

Definition convertMessages (messages : list ChatMessage) : list ChatMessage :=
  map (fun msg => mkChatMessage (role msg) (content msg)) messages.

Definition isText (c : ContentBlock) : bool :=
  match c with TextBlock _ => true | _ => false end.

Definition isToolUse (c : ContentBlock) : bool :=
  match c with ToolUseBlock _ _ _ => true | _ => false end.

(** [.filter(Boolean)] on a list whose members are objects or [null]. *)
Fixpoint filterBoolean {A} (l : list (option A)) : list A :=
  match l with
  | [] => []
  | Some a :: l' => a :: filterBoolean l'
  | None :: l' => filterBoolean l'
  end.

Definition parseResponse (response : Response) : AgentResponse :=
  let textContent := List.find isText (rs_content response) in
  let content :=
    match textContent with
    | Some (TextBlock text) => text
    | _ => ""
    end in
  let toolUseBlocks := List.filter isToolUse (rs_content response) in
  let toolCalls :=
    filterBoolean
      (map (fun block =>
              match block with
              | ToolUseBlock id name input => Some (mkToolCall id name input)
              | _ => None
              end) toolUseBlocks) in
  mkAgentResponse content
                  (if (0 <? length toolCalls)%nat then Some toolCalls else None)
                  (rs_stop_reason response).

(** The invocation a content block asks for. *)
Definition requestedTool (block : ContentBlock) : option ToolCall :=
  match block with
  | ToolUseBlock id name input => Some (mkToolCall id name input)
  | _ => None
  end.

Definition chatRequest (systemPrompt : string) (anthropicMessages : list ChatMessage)
  : Request :=
  mkRequest (model agentConfig) 1024 systemPrompt anthropicMessages
            (if (0 <? length tools)%nat then Some tools else None).

Definition chat (messages : loc) (clientContext : option loc) : Prog AgentResponse :=
  systemPrompt <- buildSystemPrompt clientContext ;;
  msgs <- readArray messages ;;
  let anthropicMessages := convertMessages msgs in
  tryCatch
    (response <- anthropic_messages_create (chatRequest systemPrompt anthropicMessages) ;;
     ret (parseResponse response))
    (fun error =>
       _ <- console_error "Claude API error:" error ;;
       throw error).

(** Execute a tool call. *)
Definition executeTool (toolCall : ToolCall) : Prog Value :=
  _ <- emit (ToolRun (tc_name toolCall) (tc_input toolCall)) ;;
  match executeToolCall (tc_name toolCall) (tc_input toolCall) with
  | inl result => ret result
  | inr e => throw e
  end.

Definition toolUseMessage (toolCall : ToolCall) : ChatMessage :=
  mkChatMessage assistant
    (Parts [ToolUsePart (tc_id toolCall) (tc_name toolCall) (tc_input toolCall)]).

Definition toolResultMessage (toolCall : ToolCall) (toolResult : Value) : ChatMessage :=
  mkChatMessage user
    (Parts [ToolResultPart (tc_id toolCall) (JSON_stringify toolResult)]).

(** Continue conversation after tool execution. *)
Definition continueWithToolResult (messages : loc) (toolCall : ToolCall)
           (toolResult : Value) (clientContext : option loc) : Prog AgentResponse :=
  msgs <- readArray messages ;;
  updatedMessages <-
    newArray (msgs ++ [toolUseMessage toolCall; toolResultMessage toolCall toolResult]) ;;
  chat updatedMessages clientContext.

(** [toLowerCase] of the language. *)
Variable toLowerCase : Utf16.LowerCase.

(** Check for escalation triggers. *)
Definition shouldEscalate (message : Utf16.ustring) : bool :=
  let lowerMessage := Utf16.lower toLowerCase message in
  existsb (fun trigger =>
             Utf16.includes lowerMessage (Utf16.lower toLowerCase trigger))
          (escalationTriggers agentConfig).

(** The request of [streamChat]: it names no tools. *)
Definition streamRequest (systemPrompt : string) (anthropicMessages : list ChatMessage)
  : Request :=
  mkRequest (model agentConfig) 1024 systemPrompt anthropicMessages None.

Definition yieldOf (event : StreamEvent) : option string :=
  match event with
  | ContentBlockDelta _ (TextDelta text) => Some text
  | _ => None
  end.

(** The loop over the stream: the fragments yielded, in order. *)
Fixpoint forAwait (events : list StreamEvent) : list string :=
  match events with
  | [] => []
  | event :: rest =>
      match yieldOf event with
      | Some text => text :: forAwait rest
      | None => forAwait rest
      end
  end.

(** Stream response: the generator drained by its consumer.  The result
    is the list of fragments yielded; the generator throws after them
    when the stream breaks off. *)
Definition streamChat (messages : loc) (clientContext : option loc)
  : State -> list string * Outcome unit * State :=
  fun st =>
    match (systemPrompt <- buildSystemPrompt clientContext ;;
           msgs <- readArray messages ;;
           let anthropicMessages := convertMessages msgs in
           let req := streamRequest systemPrompt anthropicMessages in
           _ <- emit (Stream req) ;;
           ret (messages_stream req)) st with
    | (Returned (events, None), st') => (forAwait events, Returned tt, st')
    | (Returned (events, Some e), st') => (forAwait events, Thrown e, st')
    | (Thrown e, st') => ([], Thrown e, st')
    | (OutOfModel, st') => ([], OutOfModel, st')
    end.

End Orchestrator.
End Agent.

Arguments Agent.ToolUsePart {Value} id name input.
Arguments Agent.ToolResultPart {Value} tool_use_id content.
Arguments Agent.Text {Value} s.
Arguments Agent.Parts {Value} ps.
Arguments Agent.mkChatMessage {Value} role content.
Arguments Agent.role {Value} c.
Arguments Agent.content {Value} c.
Arguments Agent.mkToolCall {Value} tc_id tc_name tc_input.
Arguments Agent.tc_id {Value} t.
Arguments Agent.tc_name {Value} t.
Arguments Agent.tc_input {Value} t.
Arguments Agent.mkAgentResponse {Value} ar_content ar_toolCalls ar_stopReason.
Arguments Agent.ar_content {Value} a.
Arguments Agent.ar_toolCalls {Value} a.
Arguments Agent.ar_stopReason {Value} a.
Arguments Agent.mkToolDefinition {Value} td_name td_description td_input_schema.
Arguments Agent.td_name {Value} t.
Arguments Agent.td_description {Value} t.
Arguments Agent.td_input_schema {Value} t.
Arguments Agent.mkTool {Value} name description input_schema.
Arguments Agent.mkRequest {Value} rq_model rq_max_tokens rq_system rq_messages rq_tools.
Arguments Agent.rq_model {Value} r.
Arguments Agent.rq_max_tokens {Value} r.
Arguments Agent.rq_system {Value} r.
Arguments Agent.rq_messages {Value} r.
Arguments Agent.rq_tools {Value} r.
Arguments Agent.TextBlock {Value} text.
Arguments Agent.ToolUseBlock {Value} id name input.
Arguments Agent.ThinkingBlock {Value} thinking signature.
Arguments Agent.RedactedThinkingBlock {Value} data.
Arguments Agent.mkResponse {Value} rs_content rs_stop_reason.
Arguments Agent.rs_content {Value} r.
Arguments Agent.rs_stop_reason {Value} r.
Arguments Agent.Create {Value Err} req.
Arguments Agent.Stream {Value Err} req.
Arguments Agent.ConsoleError {Value Err} label error.
Arguments Agent.ToolRun {Value Err} tool input.
Arguments Agent.mkState {Value Err} arrays objects trace.
Arguments Agent.arrays {Value Err} s.
Arguments Agent.objects {Value Err} s.
Arguments Agent.trace {Value Err} s.
Arguments Agent.Returned {Err A} a.
Arguments Agent.Thrown {Err A} e.
Arguments Agent.OutOfModel {Err A}.
Arguments Agent.isText {Value} c.
Arguments Agent.isToolUse {Value} c.
Arguments Agent.parseResponse {Value} response.
Arguments Agent.convertMessages {Value} messages.
Arguments Agent.requestOf {Value Err} ev.
Arguments Agent.requestsOf {Value Err} events.
Arguments Agent.isToolRun {Value Err} ev.
Arguments Agent.isBackendCall {Value Err} ev.
Arguments Agent.requestedTool {Value} block.
Arguments Agent.tools {Value} toolDefinitions.
Arguments Agent.replaceEntries {Value} ToString entries systemPrompt.
Arguments Agent.buildSystemPrompt {Value Err} ToString agentConfig clientContext _.
Arguments Agent.chatRequest {Value} agentConfig toolDefinitions systemPrompt anthropicMessages.
Arguments Agent.streamRequest {Value} agentConfig systemPrompt anthropicMessages.
Arguments Agent.chat {Value Err} ToString agentConfig toolDefinitions messages_create
  messages clientContext _.
Arguments Agent.executeTool {Value Err} executeToolCall toolCall _.
Arguments Agent.toolUseMessage {Value} toolCall.
Arguments Agent.toolResultMessage {Value} JSON_stringify toolCall toolResult.
Arguments Agent.continueWithToolResult {Value Err} ToString JSON_stringify agentConfig
  toolDefinitions messages_create messages toolCall toolResult clientContext _.
Arguments Agent.streamChat {Value Err} ToString agentConfig messages_stream
  messages clientContext _.
Arguments Agent.readArray {Value Err} l _.
Arguments Agent.Object_entries {Value Err} l _.
Arguments Agent.newArray {Value Err} ms _.
Arguments Agent.emit {Value Err} ev _.
Arguments Agent.anthropic_messages_create {Value Err} messages_create req _.
Arguments Agent.console_error {Value Err} label error _.
Arguments Agent.ret {Value Err A} a _.
Arguments Agent.throw {Value Err A} e _.
Arguments Agent.bind {Value Err A B} m k _.
Arguments Agent.tryCatch {Value Err A} body handler _.
Arguments Agent.liftOption {Value Err A} o _.

(** ** Completion of the onboarding flow *)

Module Onboarding.
Section Persist.

(** The collected form data ([Record<string, any>]) and the values a
    rejected [fetch] throws. *)
Variables Data Err : Type.

(** A row of [agent_configurations]. *)
Record Configuration := mkConfiguration {
  user_id : string;
  agent_type : string;
  configuration : Data;
  status : string;
  created_at : string
}.

(** The body posted to [/api/agents/provision]. *)
Record ProvisionBody := mkProvisionBody {
  pb_userId : string;
  pb_flowId : string;
  pb_configuration : Data
}.

(** Whether the table takes a row, given the rows it holds: the
    constraints of a schema that the template does not show. *)
Variable accepts : list Configuration -> Configuration -> bool.

(** The text of [new Date().toISOString()] at the n-th reading of the
    clock. *)
Variable toISOString : nat -> string.

(** [fetch] rejects with a value when the request cannot be made. *)
Variable fetch : ProvisionBody -> option Err.

Record World := mkWorld {
  agent_configurations : list Configuration;
  provisionRequests : list ProvisionBody;
  clockReadings : nat
}.

(** [supabase.from('agent_configurations').insert(row)]: the client
    reports a refused row in its result, which the caller drops. *)
Definition insert (row : Configuration) (w : World) : World :=
  if accepts (agent_configurations w) row
  then mkWorld (agent_configurations w ++ [row]) (provisionRequests w) (clockReadings w)
  else w.

Definition readClock (w : World) : string * World :=
  (toISOString (clockReadings w),
   mkWorld (agent_configurations w) (provisionRequests w) (S (clockReadings w))).

Definition postProvision (body : ProvisionBody) (w : World) : option Err * World :=
  (fetch body,
   mkWorld (agent_configurations w) (provisionRequests w ++ [body]) (clockReadings w)).

Definition completeOnboarding (userId flowId : string) (allData : Data) (w : World)
  : option Err * World :=
  (* Save final configuration *)
  let (now, w1) := readClock w in
  let w2 := insert (mkConfiguration userId flowId allData "active" now) w1 in
  (* Trigger agent provisioning *)
  postProvision (mkProvisionBody userId flowId allData) w2.

(** The completion path requested [n] times in a row for one flow. *)
Fixpoint completeTimes (n : nat) (userId flowId : string) (allData : Data) (w : World)
  : World :=
  match n with
  | O => w
  | S n' => completeTimes n' userId flowId allData
                          (snd (completeOnboarding userId flowId allData w))
  end.

End Persist.
End Onboarding.

Arguments Onboarding.mkConfiguration {Data} user_id agent_type configuration status created_at.
Arguments Onboarding.mkProvisionBody {Data} pb_userId pb_flowId pb_configuration.
Arguments Onboarding.mkWorld {Data} agent_configurations provisionRequests clockReadings.
Arguments Onboarding.agent_configurations {Data} w.
Arguments Onboarding.provisionRequests {Data} w.
Arguments Onboarding.clockReadings {Data} w.

(** ** A concrete host *)

(** Values of depth one with the conversions the language defines for
    them, backends that give one answer to every request, a table
    without constraints and a fixed clock. *)
Module Host.

Inductive Scalar :=
| Undefined
| Null
| Boolean (b : bool)
| Str (s : string).

Inductive Value :=
| Prim (p : Scalar)
| Object (fields : list (string * Scalar)).

Definition Err := string.

Definition ScalarToString (p : Scalar) : string :=
  match p with
  | Undefined => "undefined"
  | Null => "null"
  | Boolean true => "true"
  | Boolean false => "false"
  | Str s => s
  end.

(** [String(value)]. *)
Definition ToString (v : Value) : string :=
  match v with
  | Prim p => ScalarToString p
  | Object _ => "[object Object]"
  end.

Definition hexDigit (n : nat) : ascii :=
  match String.get n "0123456789abcdef" with
  | Some c => c
  | None => "0"%char
  end.

Definition quotationMark : ascii := ascii_of_nat 34.

(** The escapes of [JSON.stringify] for one code unit. *)
Definition escapeUnit (c : ascii) : string :=
  let n := nat_of_ascii c in
  if (n =? 34)%nat then String "\" (String quotationMark "")
  else if (n =? 92)%nat then "\\"
  else if (n =? 8)%nat then "\b"
  else if (n =? 9)%nat then "\t"
  else if (n =? 10)%nat then "\n"
  else if (n =? 12)%nat then "\f"
  else if (n =? 13)%nat then "\r"
  else if (n <? 32)%nat then
    "\u00" +:+ String (hexDigit (n / 16)) (String (hexDigit (n mod 16)) "")
  else String c "".

Fixpoint escape (s : string) : string :=
  match s with
  | EmptyString => EmptyString
  | String c s' => escapeUnit c +:+ escape s'
  end.

Definition quote (s : string) : string :=
  String quotationMark (escape s +:+ String quotationMark "").

Definition stringifyScalar (p : Scalar) : option string :=
  match p with
  | Undefined => None
  | Null => Some "null"
  | Boolean true => Some "true"
  | Boolean false => Some "false"
  | Str s => Some (quote s)
  end.

(** The members of an object; a member whose value is [undefined] is
    left out. *)
Fixpoint stringifyMembers (fields : list (string * Scalar)) : list string :=
  match fields with
  | [] => []
  | (k, p) :: rest =>
      match stringifyScalar p with
      | Some text => (quote k +:+ ":" +:+ text) :: stringifyMembers rest
      | None => stringifyMembers rest
      end
  end.

(** [JSON.stringify(value)]. *)
Definition JSON_stringify (v : Value) : option string :=
  match v with
  | Prim p => stringifyScalar p
  | Object fields => Some ("{" +:+ String.concat "," (stringifyMembers fields) +:+ "}")
  end.

Definition config (systemPrompt : string) : Agent.AgentConfig :=
  Agent.mkAgentConfig systemPrompt "claude-sonnet-4-20250514"
    [Utf16.units "manager"; Utf16.units "lawsuit"].

Definition lookupTool : Agent.ToolDefinition Value :=
  Agent.mkToolDefinition "lookup" "Look up a record by id" (Object [("type", Str "object")]).

(** A backend that gives one answer to every request. *)
Definition answers (response : Agent.Response Value)
  : Agent.Request Value -> Agent.Response Value + Err :=
  fun _ => inl response.

(** A backend that cannot be reached. *)
Definition unavailable (e : Err) : Agent.Request Value -> Agent.Response Value + Err :=
  fun _ => inr e.

(** Tool implementations that answer every call with [null]. *)
Definition runs : string -> Value -> Value + Err :=
  fun _ _ => inl (Prim Null).

Definition emits (events : list Agent.StreamEvent)
  : Agent.Request Value -> list Agent.StreamEvent * option Err :=
  fun _ => (events, None).

(** A store with one message array at reference 0 and one context
    object at reference 1. *)
Definition store (messages : list (Agent.ChatMessage Value))
           (context : list (string * Value)) : Agent.State Value Err :=
  Agent.mkState {[ 0 := messages ]} {[ 1 := context ]} [].

Definition hello : list (Agent.ChatMessage Value) :=
  [Agent.mkChatMessage Agent.user (Agent.Text "Hello")].

(** A template with a slot the context fills and one it does not. *)
Definition greeting : list Template.Token :=
  [Template.Lit "You work for "; Template.Slot "company_name";
   Template.Lit ". Default markup: "; Template.Slot "markup_percentage";
   Template.Lit "%"].

Definition acme : list (string * Value) :=
  [("company_name", Prim (Str "Acme"))].

(** A context whose first value names the placeholder of its second
    key. *)
Definition profile : list Template.Token :=
  [Template.Lit "Company: "; Template.Slot "company_name";
   Template.Lit ". Specialty: "; Template.Slot "company_specialty"; Template.Lit "."].

Definition chained : list (string * Value) :=
  [("company_name", Prim (Str "{{company_specialty}} Masters"));
   ("company_specialty", Prim (Str "roofing"))].

Definition priceTier : list Template.Token :=
  [Template.Lit "Price tier: "; Template.Slot "price_tier"].

Definition threeDollars : list (string * Value) :=
  [("price_tier", Prim (Str "$$$"))].

Definition textAnswer : Agent.Response Value :=
  Agent.mkResponse [Agent.TextBlock "Hi there"] (Some "end_turn").

(** The response of scenario B, with a thinking block and two text
    blocks around the invocation. *)
Definition lookupAnswer : Agent.Response Value :=
  Agent.mkResponse
    [Agent.ThinkingBlock "plan" "sig"; Agent.TextBlock "Let me check.";
     Agent.ToolUseBlock "toolu_1" "lookup" (Object [("id", Str "42")]);
     Agent.TextBlock "One moment."]
    (Some "tool_use").

Definition refusalAnswer : Agent.Response Value :=
  Agent.mkResponse [Agent.TextBlock "I can not help with that."] (Some "refusal").

Definition lookupCall : Agent.ToolCall Value :=
  Agent.mkToolCall "toolu_1" "lookup" (Object [("id", Str "42")]).

Definition deltas : list Agent.StreamEvent :=
  [Agent.MessageStart; Agent.ContentBlockStart 0;
   Agent.ContentBlockDelta 0 (Agent.TextDelta "Hel");
   Agent.ContentBlockDelta 0 (Agent.TextDelta "lo");
   Agent.ContentBlockStop 0; Agent.MessageDelta; Agent.MessageStop].

(** The onboarding side: form data as a list of fields, a table without
    constraints, a provisioning endpoint that answers, a fixed clock. *)
Definition Data := list (string * string).

Definition anyRow : list (Onboarding.Configuration Data)
                    -> Onboarding.Configuration Data -> bool :=
  fun _ _ => true.

Definition clock : nat -> string := fun _ => "2025-01-01T00:00:00.000Z".

Definition reachable : Onboarding.ProvisionBody Data -> option Err := fun _ => None.

Definition emptyWorld : Onboarding.World Data := Onboarding.mkWorld [] [] 0.

Definition acmeData : Data := [("company_name", "Acme")].

(** Lower-casing of text in the Basic Latin and Latin-1 characters and
    the Greek letters U+0391..U+03A9 and U+03B1..U+03C9, on which it is
    what the language does: a capital moves to its small letter, and a
    capital sigma becomes the final sigma U+03C2 when a cased letter
    comes before it, case-ignorable characters apart, and none comes
    after it.  Code units outside these ranges are left as they are. *)
Definition isUpperGreek (u : N) : bool :=
  ((0x391 <=? u) && (u <=? 0x3A1) || (0x3A3 <=? u) && (u <=? 0x3A9))%N.

Definition lowerUnit (u : N) : N :=
  if isUpperGreek u then (u + 32)%N else Utf16.lowerLatin1 u.

Definition isCased (u : N) : bool :=
  ((65 <=? u) && (u <=? 90) || (97 <=? u) && (u <=? 122)
   || (u =? 0xAA) || (u =? 0xB5) || (u =? 0xBA)
   || (0xC0 <=? u) && (u <=? 0xD6) || (0xD8 <=? u) && (u <=? 0xF6)
   || (0xF8 <=? u) && (u <=? 0xFF)
   || isUpperGreek u || (0x3B1 <=? u) && (u <=? 0x3C9))%N.

Definition isCaseIgnorable (u : N) : bool :=
  existsb (N.eqb u)
          [0x27; 0x2E; 0x3A; 0x5E; 0x60; 0xA8; 0xAD; 0xAF; 0xB4; 0xB7; 0xB8]%N.

(** A cased letter follows, case-ignorable characters apart. *)
Fixpoint casedFollows (s : Utf16.ustring) : bool :=
  match s with
  | [] => false
  | u :: rest => if isCaseIgnorable u then casedFollows rest else isCased u
  end.

(** [casedBefore]: a cased letter comes before, case-ignorable
    characters apart. *)
Fixpoint lowerFrom (casedBefore : bool) (s : Utf16.ustring) : Utf16.ustring :=
  match s with
  | [] => []
  | u :: rest =>
      (if (u =? 0x3A3)%N && casedBefore && negb (casedFollows rest)
       then 0x3C2%N
       else lowerUnit u)
      :: lowerFrom (if isCaseIgnorable u then casedBefore else isCased u) rest
  end.

Definition toLowerCase (s : Utf16.ustring) : Utf16.ustring :=
  lowerFrom false s.

End Host.

(** ** Replacement texts with dollar signs *)

Module Pattern.

(** A replacement text in which no dollar sign is followed by [&], a
    backquote or a quote (a dollar sign after a dollar sign belongs to
    the pair [$$]). *)
Fixpoint contextFree (template : string) : bool :=
  match template with
  | EmptyString => true
  | String c tl =>
      if Ascii.eqb c "$" then
        match tl with
        | EmptyString => true
        | String d rest =>
            if Ascii.eqb d "$" then contextFree rest
            else if Ascii.eqb d "&" || Ascii.eqb d "`" || Ascii.eqb d "'" then false
            else contextFree tl
        end
      else contextFree tl
  end.

(** What a replacement text stands for when nothing surrounds the
    match. *)
Definition expansion (template : string) : string :=
  RegExp.getSubstitution "" "" "" template.

Fixpoint dollars (n : nat) : string :=
  match n with
  | O => EmptyString
  | S n' => String "$" (dollars n')
  end.

End Pattern.

(** ** The progress indicator of the onboarding template *)

Module Progress.

Record Step := mkStep {
  id : string;
  title : string
}.

(** The content of a circle: the check mark or the number of the
    step. *)
Inductive Label :=
| Check
| Number (n : Z).

(** What is rendered for one step: the key of the fragment, the colour
    classes chosen for the circle (the part of its class name that
    varies), its content, the caption under it, and the colour class
    chosen for the bar that follows it, if one follows. *)
Record StepView := mkStepView {
  key : string;
  circle : string;
  label : Label;
  caption : string;
  connector : option string
}.

Definition renderStep (count : nat) (currentStep : Z) (i : nat) (step : Step)
  : StepView :=
  mkStepView
    (id step)
    (if (Z.of_nat i <? currentStep)%Z then "bg-green-500 text-white"
     else if (Z.of_nat i =? currentStep)%Z then "bg-blue-500 text-white"
     else "bg-gray-200 text-gray-500")
    (if (Z.of_nat i <? currentStep)%Z then Check else Number (Z.of_nat i + 1))
    (title step)
    (if (Z.of_nat i <? Z.of_nat count - 1)%Z
     then Some (if (Z.of_nat i <? currentStep)%Z then "bg-green-500" else "bg-gray-200")
     else None).

(** [steps.map((step, i) => ...)] for an integral [currentStep]. *)
Definition ProgressBar (steps : list Step) (currentStep : Z) : list StepView :=
  imap (renderStep (length steps) currentStep) steps.

End Progress.

(** ** Further concrete cases *)

Module Cases.

Definition rates : list Template.Token :=
  [Template.Lit "Rate: "; Template.Slot "labor_rate";
   Template.Lit "/hour, tier "; Template.Slot "price_tier"].

Definition priced : list (string * Host.Value) :=
  [("labor_rate", Host.Prim (Host.Str "$75"));
   ("price_tier", Host.Prim (Host.Str "$$$"))].

Definition trade : list (string * Host.Value) :=
  [("company_name", Host.Prim (Host.Str "Acme"));
   ("company_specialty", Host.Prim (Host.Str "roofing"))].

Definition tradeReversed : list (string * Host.Value) :=
  [("company_specialty", Host.Prim (Host.Str "roofing"));
   ("company_name", Host.Prim (Host.Str "Acme"))].

Definition secondCall : Agent.ToolCall Host.Value :=
  Agent.mkToolCall "toolu_2" "lookup" (Host.Object [("id", Host.Str "43")]).

Definition breaks (events : list Agent.StreamEvent) (e : Host.Err)
  : Agent.Request Host.Value -> list Agent.StreamEvent * option Host.Err :=
  fun _ => (events, Some e).

(** A table that holds one configuration for a user and flow at most. *)
Definition oneEach : list (Onboarding.Configuration Host.Data)
                     -> Onboarding.Configuration Host.Data -> bool :=
  fun rows row =>
    negb (existsb (fun r => String.eqb (Onboarding.user_id _ r) (Onboarding.user_id _ row)
                            && String.eqb (Onboarding.agent_type _ r)
                                          (Onboarding.agent_type _ row))
                  rows).

Definition unreachable (e : Host.Err) : Onboarding.ProvisionBody Host.Data -> option Host.Err :=
  fun _ => Some e.

Definition completedWorld : Onboarding.World Host.Data :=
  Onboarding.mkWorld
    [Onboarding.mkConfiguration "user-1" "construction-rfq" Host.acmeData "active"
       "2025-01-01T00:00:00.000Z"]
    [Onboarding.mkProvisionBody "user-1" "construction-rfq" Host.acmeData]
    1.

Definition fiveSteps : list Progress.Step :=
  [Progress.mkStep "welcome" "Welcome"; Progress.mkStep "connect" "Connect";
   Progress.mkStep "configure" "Configure"; Progress.mkStep "upload" "Upload";
   Progress.mkStep "activate" "Activate"].

End Cases.

Module StringFacts.
Import JsString RegExp Template.

#[local] Arguments String.append !s1 s2 / : simpl nomatch.

Lemma append_empty_r (s : string) : s +:+ "" = s.
Proof. induction s as [|c s IH]; simpl; [reflexivity | now rewrite IH]. Qed.

Lemma append_assoc (a b c : string) : (a +:+ b) +:+ c = a +:+ (b +:+ c).
Proof. induction a as [|x a IH]; simpl; [reflexivity | now rewrite IH]. Qed.

Lemma prefix_cons (a b : ascii) (p s : string) :
  String.prefix (String a p) (String b s) = Ascii.eqb a b && String.prefix p s.
Proof.
  simpl. destruct (ascii_dec a b) as [->|Hne].
  - now rewrite Ascii.eqb_refl.
  - apply Ascii.eqb_neq in Hne. now rewrite Hne.
Qed.

Lemma prefix_append (p rest : string) : String.prefix p (p +:+ rest) = true.
Proof.
  induction p as [|c p IH]; simpl.
  - now destruct rest.
  - destruct (ascii_dec c c); [exact IH | congruence].
Qed.

Lemma slice_append (p rest : string) : slice (String.length p) (p +:+ rest) = rest.
Proof. induction p as [|c p IH]; simpl; [now destruct rest | exact IH]. Qed.

Lemma getSubstitution_noDollar (matched before after template : string) :
  noDollar template = true ->
  getSubstitution matched before after template = template.
Proof.
  induction template as [|c t IH]; simpl; [reflexivity |].
  intros H. apply andb_true_iff in H as [Hc Ht].
  apply negb_true_iff in Hc. rewrite Hc. now rewrite IH.
Qed.

(** Passing the rest of a match. *)
Lemma replaceScan_skip (pat template : string) (a : string) :
  forall before b,
    replaceScan pat template before (String.length a) (a +:+ b)
    = replaceScan pat template (before +:+ a) 0 b.
Proof.
  induction a as [|c a IH]; intros before b; simpl.
  - now rewrite append_empty_r.
  - rewrite IH, append_assoc. reflexivity.
Qed.

(** At a match the scan emits the expansion and resumes after it. *)
Lemma replaceScan_match (c0 : ascii) (pat' template before rest : string) :
  replaceScan (String c0 pat') template before 0 (String c0 pat' +:+ rest)
  = getSubstitution (String c0 pat') before rest template
    +:+ replaceScan (String c0 pat') template (before +:+ String c0 pat') 0 rest.
Proof.
  change (String c0 pat' +:+ rest) with (String c0 (pat' +:+ rest)).
  cbn [replaceScan].
  change (String c0 (pat' +:+ rest)) with (String c0 pat' +:+ rest).
  rewrite prefix_append, slice_append.
  f_equal.
  replace (String.length (String c0 pat') - 1) with (String.length pat')
    by (simpl; lia).
  rewrite replaceScan_skip, append_assoc. reflexivity.
Qed.

Lemma replaceScan_same (key template before rest : string) :
  replaceScan (placeholder key) template before 0 (placeholder key +:+ rest)
  = getSubstitution (placeholder key) before rest template
    +:+ replaceScan (placeholder key) template (before +:+ placeholder key) 0 rest.
Proof. exact (replaceScan_match "{" (String "{" (key +:+ "}}")) template before rest). Qed.

(** Text with lone braces holds no start of a placeholder. *)
Lemma replaceScan_text (key template : string) (txt : string) :
  loneBraces txt = true ->
  forall before rest,
    replaceScan (placeholder key) template before 0 (txt +:+ rest)
    = txt +:+ replaceScan (placeholder key) template (before +:+ txt) 0 rest.
Proof.
  induction txt as [|c txt IH]; intros Htxt before rest.
  - simpl. now rewrite append_empty_r.
  - simpl in Htxt. apply andb_true_iff in Htxt as [Hc Htxt].
    change (String c txt +:+ rest) with (String c (txt +:+ rest)).
    cbn [replaceScan].
    assert (Hno : String.prefix (placeholder key) (String c (txt +:+ rest)) = false).
    { unfold placeholder. cbn [String.append]. rewrite prefix_cons.
      destruct (Ascii.eqb "{" c) eqn:E; [|reflexivity].
      apply Ascii.eqb_eq in E. subst c. simpl in Hc.
      destruct txt as [|d txt]; [discriminate|].
      cbn [String.append andb]. rewrite prefix_cons.
      rewrite Ascii.eqb_sym. apply negb_true_iff in Hc. now rewrite Hc. }
    rewrite Hno, IH by exact Htxt.
    now rewrite append_assoc.
Qed.

Lemma braceFree_cons (c : ascii) (s : string) :
  braceFree (String c s) = true ->
  Ascii.eqb c "{" = false /\ Ascii.eqb c "}" = false /\ braceFree s = true.
Proof.
  unfold braceFree. simpl. intros H.
  apply andb_true_iff in H as [Hc Hs]. unfold isBrace in Hc.
  apply negb_true_iff, orb_false_iff in Hc. tauto.
Qed.

(** Two brace-free keys whose placeholders begin at the same place are
    the same key. *)
Lemma placeholder_body_inj (k : string) :
  forall k' rest,
    braceFree k = true -> braceFree k' = true ->
    String.prefix (k +:+ "}}") ((k' +:+ "}}") +:+ rest) = true ->
    k = k'.
Proof.
  induction k as [|c k IH]; intros k' rest Hk Hk' Hp.
  - destruct k' as [|d k']; [reflexivity|].
    apply braceFree_cons in Hk' as (_ & Hd & _).
    cbn [String.append] in Hp. rewrite prefix_cons in Hp.
    rewrite Ascii.eqb_sym, Hd in Hp. discriminate.
  - apply braceFree_cons in Hk as (_ & Hc & Hk).
    destruct k' as [|d k'].
    + cbn [String.append] in Hp. rewrite prefix_cons, Hc in Hp. discriminate.
    + apply braceFree_cons in Hk' as (_ & _ & Hk').
      cbn [String.append] in Hp. rewrite prefix_cons in Hp.
      apply andb_true_iff in Hp as [Hcd Hp].
      apply Ascii.eqb_eq in Hcd. subst d.
      f_equal. eapply IH; eauto.
Qed.

Lemma loneBraces_braceFree (s rest : string) :
  braceFree s = true -> loneBraces rest = true -> loneBraces (s +:+ rest) = true.
Proof.
  induction s as [|c s IH]; intros Hs Hrest; [exact Hrest|].
  apply braceFree_cons in Hs as (Hc & _ & Hs).
  cbn [String.append loneBraces]. rewrite Hc. simpl. now apply IH.
Qed.

Lemma loneBraces_inner (k : string) :
  braceFree k = true -> loneBraces (String "{" (k +:+ "}}")) = true.
Proof.
  intros Hk. cbn [loneBraces].
  rewrite (loneBraces_braceFree k "}}" Hk eq_refl).
  destruct k as [|c k]; [reflexivity|].
  apply braceFree_cons in Hk as (Hc & _ & _).
  cbn [String.append]. rewrite Hc. reflexivity.
Qed.

(** The placeholder of another key passes unchanged. *)
Lemma replaceScan_other (key key' template before rest : string) :
  braceFree key = true -> braceFree key' = true -> key' <> key ->
  replaceScan (placeholder key) template before 0 (placeholder key' +:+ rest)
  = placeholder key'
    +:+ replaceScan (placeholder key) template (before +:+ placeholder key') 0 rest.
Proof.
  intros Hk Hk' Hne.
  assert (Hno : String.prefix (placeholder key) (placeholder key' +:+ rest) = false).
  { destruct (String.prefix (placeholder key) (placeholder key' +:+ rest)) eqn:E;
      [|reflexivity].
    exfalso. apply Hne. symmetry.
    unfold placeholder in E. cbn [String.append] in E.
    rewrite !prefix_cons in E. simpl in E.
    eapply placeholder_body_inj; eauto. }
  assert (Hshape : placeholder key' = String "{" (String "{" (key' +:+ "}}")))
    by reflexivity.
  rewrite Hshape in *.
  change (String "{" (String "{" (key' +:+ "}}")) +:+ rest)
    with (String "{" (String "{" (key' +:+ "}}") +:+ rest)) in *.
  cbn [replaceScan]. rewrite Hno.
  rewrite replaceScan_text by now apply loneBraces_inner.
  rewrite append_assoc. reflexivity.
Qed.

End StringFacts.

Module TemplateFacts.
Import JsString RegExp Template StringFacts.

#[local] Arguments String.append !s1 s2 / : simpl nomatch.

Lemma plainKey_braceFree (key : string) :
  plainKey key = true -> braceFree key = true.
Proof.
  unfold plainKey, braceFree.
  induction key as [|c key IH]; [reflexivity|].
  cbn [every]. intros H. apply andb_true_iff in H as [Hc Hk].
  rewrite IH by exact Hk. rewrite andb_true_r.
  apply negb_true_iff in Hc. apply negb_true_iff.
  unfold isBrace. unfold isSyntaxCharacter in Hc. simpl in Hc.
  repeat (apply orb_false_iff in Hc as [? Hc]).
  apply orb_false_iff. split; assumption.
Qed.

(** One replacement on a well-formed template binds the slots of its key
    and nothing else. *)
Lemma replaceScan_show (key value : string) (toks : list Token) :
  braceFree key = true ->
  inertValue value = true ->
  Forall (fun tok => wellFormedToken tok = true) toks ->
  forall before,
    replaceScan (placeholder key) value before 0 (show toks)
    = show (map (bindSlot key value) toks).
Proof.
  intros Hkey Hval Htoks.
  apply andb_true_iff in Hval as [Hdollar Hlone].
  induction Htoks as [|tok toks Htok _ IH]; intros before; [reflexivity|].
  cbn [show map]. destruct tok as [text|k]; cbn [showToken bindSlot].
  - rewrite replaceScan_text by exact Htok. now rewrite IH.
  - destruct (String.eqb_spec k key) as [->|Hne].
    + rewrite replaceScan_same.
      rewrite getSubstitution_noDollar by exact Hdollar.
      cbn [showToken]. f_equal. apply IH.
    + rewrite replaceScan_other by (try exact Htok; assumption).
      cbn [showToken]. f_equal. apply IH.
Qed.

Lemma bindSlot_wellFormed (key value : string) (toks : list Token) :
  inertValue value = true ->
  Forall (fun tok => wellFormedToken tok = true) toks ->
  Forall (fun tok => wellFormedToken tok = true) (map (bindSlot key value) toks).
Proof.
  intros Hval Htoks. apply andb_true_iff in Hval as [_ Hlone].
  induction Htoks as [|tok toks Htok _ IH]; constructor; [|exact IH].
  destruct tok as [text|k]; cbn [bindSlot]; [exact Htok|].
  destruct (String.eqb k key); [exact Hlone | exact Htok].
Qed.

Lemma specSubstitute_bindSlot (key value : string) entries (toks : list Token) :
  specSubstitute entries (map (bindSlot key value) toks)
  = specSubstitute ((key, value) :: entries) toks.
Proof.
  induction toks as [|tok toks IH]; [reflexivity|].
  cbn [map specSubstitute]. rewrite IH. f_equal.
  destruct tok as [text|k]; cbn [bindSlot specSubstituteToken valueOf]; [reflexivity|].
  rewrite (String.eqb_sym key k).
  destruct (String.eqb k key); reflexivity.
Qed.

Lemma specSubstitute_nil (toks : list Token) : specSubstitute [] toks = show toks.
Proof.
  induction toks as [|tok toks IH]; [reflexivity|].
  cbn [specSubstitute show]. rewrite IH. now destruct tok.
Qed.

End TemplateFacts.

Module AgentFacts.
Import JsString RegExp Template StringFacts TemplateFacts Agent.

Section Properties.

Context {Value Err : Type}.
Variable ToString : Value -> string.
Variable JSON_stringify : Value -> option string.
Variable agentConfig : AgentConfig.
Variable toolDefinitions : list (ToolDefinition Value).
Variable messages_create : Request Value -> Response Value + Err.
Variable messages_stream : Request Value -> list StreamEvent * option Err.
Variable executeToolCall : string -> Value -> Value + Err.

Local Abbreviation chat := (Agent.chat ToString agentConfig toolDefinitions messages_create).
Local Abbreviation buildSystemPrompt := (Agent.buildSystemPrompt (Err:=Err) ToString agentConfig).
Local Abbreviation chatRequest := (Agent.chatRequest agentConfig toolDefinitions).
Local Abbreviation streamRequest := (Agent.streamRequest (Value:=Value) agentConfig).
Local Abbreviation streamChat := (Agent.streamChat ToString agentConfig messages_stream).
Local Abbreviation continueWithToolResult :=
  (Agent.continueWithToolResult ToString JSON_stringify agentConfig toolDefinitions
                                messages_create).
Local Abbreviation executeTool := (Agent.executeTool executeToolCall).

Implicit Types st : State Value Err.
Implicit Types M : list (ChatMessage Value).

Lemma convertMessages_id M : convertMessages M = M.
Proof.
  unfold convertMessages. induction M as [|[r c] M IH]; [reflexivity|].
  cbn [map role content]. now rewrite IH.
Qed.

(** Building the prompt reads the context and changes nothing. *)
Lemma buildSystemPrompt_state st ctx : (buildSystemPrompt ctx st).2 = st.
Proof.
  unfold Agent.buildSystemPrompt. destruct ctx as [l|]; [|reflexivity].
  unfold bind, Object_entries. destruct (objects st !! l) as [entries|]; cbn; [|reflexivity].
  destruct (replaceEntries ToString entries (systemPrompt agentConfig)); reflexivity.
Qed.

(** The prompt depends on the context objects of the store only. *)
Lemma buildSystemPrompt_objects st st' ctx :
  objects st' = objects st ->
  (buildSystemPrompt ctx st').1 = (buildSystemPrompt ctx st).1.
Proof.
  intros Hobj. unfold Agent.buildSystemPrompt. destruct ctx as [l|]; [|reflexivity].
  unfold bind, Object_entries. rewrite Hobj.
  destruct (objects st !! l) as [entries|]; cbn; [|reflexivity].
  destruct (replaceEntries ToString entries (systemPrompt agentConfig)); reflexivity.
Qed.

Lemma buildSystemPrompt_transfer st st' ctx p :
  objects st' = objects st ->
  buildSystemPrompt ctx st = (Returned p, st) ->
  buildSystemPrompt ctx st' = (Returned p, st').
Proof.
  intros Hobj Hp.
  rewrite (surjective_pairing (buildSystemPrompt ctx st')).
  rewrite buildSystemPrompt_state, (buildSystemPrompt_objects st st' ctx Hobj), Hp.
  reflexivity.
Qed.

(** One run of [chat] within the model. *)
Lemma chat_run st messages M ctx p :
  arrays st !! messages = Some M ->
  buildSystemPrompt ctx st = (Returned p, st) ->
  chat messages ctx st
  = match messages_create (chatRequest p M) with
    | inl response =>
        (Returned (parseResponse response),
         mkState (arrays st) (objects st) (trace st ++ [Create (chatRequest p M)]))
    | inr e =>
        (Thrown e,
         mkState (arrays st) (objects st)
                 (trace st ++ [Create (chatRequest p M); ConsoleError "Claude API error:" e]))
    end.
Proof.
  intros HM Hp. unfold Agent.chat.
  unfold bind at 1. rewrite Hp.
  unfold bind at 1. unfold readArray at 1. rewrite HM. cbn [liftOption ret].
  rewrite convertMessages_id.
  unfold tryCatch, bind, anthropic_messages_create, bind, emit, console_error, emit.
  destruct (messages_create (chatRequest p M)) as [response|e]; cbn.
  - reflexivity.
  - now rewrite <- app_assoc.
Qed.

(** [chat] writes to no array and to no object of the store. *)
Lemma chat_frame st messages ctx :
  arrays (chat messages ctx st).2 = arrays st
  /\ objects (chat messages ctx st).2 = objects st.
Proof.
  pose proof (buildSystemPrompt_state st ctx) as Hst.
  unfold Agent.chat, bind, readArray, tryCatch, anthropic_messages_create,
    console_error, bind, emit.
  destruct (buildSystemPrompt ctx st) as [[p| |] st1]; cbn in Hst; subst st1;
    [|split; reflexivity..].
  destruct (arrays st !! messages) as [M|]; cbn [liftOption ret outOfModel];
    [|split; reflexivity].
  destruct (messages_create _); cbn; split; reflexivity.
Qed.

Lemma buildSystemPrompt_none st :
  buildSystemPrompt None st = (Returned (systemPrompt agentConfig), st).
Proof. reflexivity. Qed.

Lemma buildSystemPrompt_some st ctx entries p :
  objects st !! ctx = Some entries ->
  replaceEntries ToString entries (systemPrompt agentConfig) = Some p ->
  buildSystemPrompt (Some ctx) st = (Returned p, st).
Proof.
  intros Hctx Hp. unfold Agent.buildSystemPrompt, bind, Object_entries.
  rewrite Hctx. cbn. now rewrite Hp.
Qed.

(** The entries applied one after another to a well-formed template
    give the template with its slots filled in one pass. *)
Lemma replaceEntries_show entries :
  Forall (fun e => plainKey e.1 = true /\ inertValue (ToString e.2) = true) entries ->
  forall toks,
    Forall (fun tok => wellFormedToken tok = true) toks ->
    replaceEntries ToString entries (show toks)
    = Some (specSubstitute (map (fun e => (e.1, ToString e.2)) entries) toks).
Proof.
  induction 1 as [|[key value] entries [Hkey Hval] _ IH]; intros toks Htoks.
  - cbn. now rewrite specSubstitute_nil.
  - cbn [replaceEntries map fst snd] in *. unfold replacePlaceholder. rewrite Hkey.
    rewrite replaceScan_show by (auto using plainKey_braceFree).
    rewrite IH by (now apply bindSlot_wellFormed).
    now rewrite specSubstitute_bindSlot.
Qed.

(** C1, amended: on a well-formed template (literal text whose opening
    braces stand alone, and placeholders with brace-free names), with
    context keys free of pattern syntax and context values free of dollar
    signs and of doubled opening braces, the one request that chat submits
    carries the template in which every placeholder of a key of the
    context is substituted by the text of its value and every other
    placeholder is left verbatim. *)
Theorem chat_substitutes_placeholders st messages M ctx entries toks :
  arrays st !! messages = Some M ->
  objects st !! ctx = Some entries ->
  Forall (fun e => plainKey e.1 = true /\ inertValue (ToString e.2) = true) entries ->
  Forall (fun tok => wellFormedToken tok = true) toks ->
  systemPrompt agentConfig = show toks ->
  exists events,
    trace (chat messages (Some ctx) st).2 = trace st ++ events
    /\ map rq_system (requestsOf events)
       = [specSubstitute (map (fun e => (e.1, ToString e.2)) entries) toks].
Proof.
  intros HM Hctx Hentries Htoks Htemplate.
  pose proof (replaceEntries_show entries Hentries toks Htoks) as Hp.
  rewrite <- Htemplate in Hp.
  rewrite (chat_run st messages M (Some ctx) _ HM (buildSystemPrompt_some _ _ _ _ Hctx Hp)).
  destruct (messages_create _) as [response|e]; cbn [snd trace];
    eexists; (split; [reflexivity|]); reflexivity.
Qed.

(** C3: the one request of the continuation has as its messages the
    caller's messages followed by the assistant message with the
    tool_use part and then the user message with the tool_result part of
    the same id, and as its system text the resolved prompt; the
    continuation runs as chat does on a fresh array that holds this
    extended history; the caller's array is left as it was. *)
Theorem continueWithToolResult_appends_call_then_result
        st messages M toolCall toolResult ctx p :
  arrays st !! messages = Some M ->
  buildSystemPrompt ctx st = (Returned p, st) ->
  let extended :=
    M ++ [mkChatMessage assistant
            (Parts [ToolUsePart (tc_id toolCall) (tc_name toolCall) (tc_input toolCall)]);
          mkChatMessage user
            (Parts [ToolResultPart (tc_id toolCall) (JSON_stringify toolResult)])] in
  let updatedMessages := fresh (dom (arrays st)) in
  let st1 := mkState (<[updatedMessages := extended]> (arrays st)) (objects st) (trace st) in
  continueWithToolResult messages toolCall toolResult ctx st = chat updatedMessages ctx st1
  /\ (exists events,
         trace (continueWithToolResult messages toolCall toolResult ctx st).2
         = trace st ++ events
         /\ requestsOf events = [chatRequest p extended]
         /\ map rq_messages (requestsOf events)
            = [M ++ [mkChatMessage assistant
                       (Parts [ToolUsePart (tc_id toolCall) (tc_name toolCall)
                                 (tc_input toolCall)]);
                     mkChatMessage user
                       (Parts [ToolResultPart (tc_id toolCall)
                                 (JSON_stringify toolResult)])]]
         /\ map rq_system (requestsOf events) = [p])
  /\ arrays (continueWithToolResult messages toolCall toolResult ctx st).2 !! messages
     = Some M.
Proof.
  intros HM Hp extended updatedMessages st1.
  assert (Hrun : continueWithToolResult messages toolCall toolResult ctx st
                 = chat updatedMessages ctx st1).
  { unfold Agent.continueWithToolResult.
    unfold bind at 1. unfold readArray at 1. rewrite HM. cbn [liftOption ret].
    reflexivity. }
  assert (Hfresh : arrays st !! updatedMessages = None).
  { apply not_elem_of_dom. apply is_fresh. }
  assert (Hext : arrays st1 !! updatedMessages = Some extended)
    by apply lookup_insert_eq.
  assert (Hp1 : buildSystemPrompt ctx st1 = (Returned p, st1))
    by (now apply (buildSystemPrompt_transfer st st1)).
  rewrite Hrun. split; [reflexivity|]. split.
  - rewrite (chat_run st1 updatedMessages extended ctx p Hext Hp1).
    destruct (messages_create _) as [response|e]; cbn [snd trace];
      eexists; (split; [reflexivity|]); repeat split; reflexivity.
  - destruct (chat_frame st1 updatedMessages ctx) as [Harr _].
    rewrite Harr. cbn [arrays st1].
    rewrite lookup_insert_ne; [exact HM|].
    intros Heq. rewrite Heq in Hfresh. congruence.
Qed.

Lemma forAwait_omap (events : list StreamEvent) :
  forAwait events = omap yieldOf events.
Proof.
  induction events as [|event events IH]; [reflexivity|].
  cbn [forAwait omap list_omap]. rewrite IH. now destruct (yieldOf event).
Qed.

Lemma streamChat_run st messages M ctx p :
  arrays st !! messages = Some M ->
  buildSystemPrompt ctx st = (Returned p, st) ->
  streamChat messages ctx st
  = (omap yieldOf (messages_stream (streamRequest p M)).1,
     match (messages_stream (streamRequest p M)).2 with
     | None => Returned tt
     | Some e => Thrown e
     end,
     mkState (arrays st) (objects st) (trace st ++ [Stream (streamRequest p M)])).
Proof.
  intros HM Hp. unfold Agent.streamChat.
  unfold bind at 1. rewrite Hp.
  unfold bind at 1. unfold readArray at 1. rewrite HM. cbn [liftOption ret].
  rewrite convertMessages_id. unfold bind, emit, ret.
  destruct (messages_stream (streamRequest p M)) as [events [e|]]; cbn [fst snd];
    now rewrite forAwait_omap.
Qed.

(** C4, amended: streamChat resolves the system prompt and converts the
    messages as chat does and submits them with the same model and token
    limit, but its request names no tools while the request of chat
    names every tool that is defined, so the two requests are the same
    exactly when no tool is defined; the fragments it yields are the
    texts of the stream's text deltas, in the order of emission. *)
Theorem streamChat_request_without_tools st messages M ctx p :
  arrays st !! messages = Some M ->
  buildSystemPrompt ctx st = (Returned p, st) ->
  exists submitted streamed,
    (exists events,
        trace (chat messages ctx st).2 = trace st ++ events
        /\ requestsOf events = [submitted])
    /\ trace (streamChat messages ctx st).2 = trace st ++ [Stream streamed]
    /\ rq_system submitted = p /\ rq_system streamed = p
    /\ rq_messages submitted = M /\ rq_messages streamed = M
    /\ rq_model submitted = model agentConfig /\ rq_model streamed = model agentConfig
    /\ rq_max_tokens submitted = 1024%Z /\ rq_max_tokens streamed = 1024%Z
    /\ rq_tools submitted
       = match toolDefinitions with
         | [] => None
         | _ => Some (map (fun tool => mkTool (td_name tool) (td_description tool)
                                              (td_input_schema tool))
                          toolDefinitions)
         end
    /\ rq_tools streamed = None
    /\ (streamed = submitted <-> toolDefinitions = [])
    /\ (streamChat messages ctx st).1.1
       = omap (fun event =>
                 match event with
                 | ContentBlockDelta _ (TextDelta text) => Some text
                 | _ => None
                 end)
              (messages_stream streamed).1.
Proof.
  intros HM Hp. exists (chatRequest p M), (streamRequest p M).
  rewrite (streamChat_run st messages M ctx p HM Hp).
  rewrite (chat_run st messages M ctx p HM Hp).
  split.
  { destruct (messages_create _) as [response|e]; cbn [snd trace];
      eexists; (split; [reflexivity|]); reflexivity. }
  repeat split; try reflexivity.
  - cbn [rq_tools Agent.chatRequest]. unfold tools. now destruct toolDefinitions.
  - intros Heq. apply (f_equal rq_tools) in Heq. cbn in Heq.
    unfold tools in Heq. destruct toolDefinitions; [reflexivity|discriminate].
  - intros Hnil.
    unfold Agent.streamRequest, Agent.chatRequest, tools. now rewrite Hnil.
Qed.

(** C5, amended: chat does not look at the length of the message list;
    for the empty list it submits one request without messages, and
    returns what the backend answers to it or throws what the backend
    throws. *)
Theorem chat_submits_empty_list st messages ctx p :
  arrays st !! messages = Some [] ->
  buildSystemPrompt ctx st = (Returned p, st) ->
  (exists events,
      trace (chat messages ctx st).2 = trace st ++ events
      /\ requestsOf events = [chatRequest p []])
  /\ (chat messages ctx st).1
     = match messages_create (chatRequest p []) with
       | inl response => Returned (parseResponse response)
       | inr e => Thrown e
       end.
Proof.
  intros HM Hp. rewrite (chat_run st messages [] ctx p HM Hp).
  destruct (messages_create _) as [response|e]; cbn [fst snd trace]; split;
    try reflexivity; eexists; (split; [reflexivity|]); reflexivity.
Qed.

(** C6: when the backend call fails, chat throws the very value the
    backend threw, has invoked the backend once, and leaves every array
    and every object of the store as it was; the events it adds are the
    one request and the console.error entry for the error. *)
Theorem chat_rethrows_backend_error st messages M ctx p e :
  arrays st !! messages = Some M ->
  buildSystemPrompt ctx st = (Returned p, st) ->
  messages_create (chatRequest p M) = inr e ->
  exists st' events,
    chat messages ctx st = (Thrown e, st')
    /\ arrays st' = arrays st
    /\ objects st' = objects st
    /\ trace st' = trace st ++ events
    /\ events = [Create (chatRequest p M); ConsoleError "Claude API error:" e]
    /\ requestsOf events = [chatRequest p M].
Proof.
  intros HM Hp Hfail. rewrite (chat_run st messages M ctx p HM Hp), Hfail.
  eexists _, _. split; [reflexivity|]. cbn [arrays objects trace].
  split; [reflexivity|]. split; [reflexivity|]. split; [reflexivity|].
  split; reflexivity.
Qed.

Lemma toolCalls_omap (blocks : list (ContentBlock Value)) :
  filterBoolean
    (map (fun block =>
            match block with
            | ToolUseBlock id name input => Some (mkToolCall id name input)
            | _ => None
            end) (List.filter isToolUse blocks))
  = omap requestedTool blocks.
Proof.
  induction blocks as [|block blocks IH]; [reflexivity|].
  destruct block; cbn; rewrite ?IH; reflexivity.
Qed.

Lemma executeTool_runs st toolCall :
  trace (executeTool toolCall st).2
  = trace st ++ [ToolRun (tc_name toolCall) (tc_input toolCall)].
Proof.
  unfold Agent.executeTool, bind, emit.
  destruct (executeToolCall _ _); reflexivity.
Qed.

(** What chat makes of a response: the tool invocations are those of
    the response's tool_use blocks, each with the block's id, name and
    input, in the order of the blocks (and no list when there is none);
    the stop reason is the backend's stop_reason, whatever it is; and
    no tool has run: a tool runs when the caller invokes executeTool. *)
Theorem chat_returns_tool_calls_unexecuted st messages M ctx p response :
  arrays st !! messages = Some M ->
  buildSystemPrompt ctx st = (Returned p, st) ->
  messages_create (chatRequest p M) = inl response ->
  (exists r st',
      chat messages ctx st = (Returned r, st')
      /\ ar_toolCalls r
         = match omap requestedTool (rs_content response) with
           | [] => None
           | calls => Some calls
           end
      /\ ar_stopReason r = rs_stop_reason response
      /\ exists events,
          trace st' = trace st ++ events
          /\ Forall (fun ev => isToolRun ev = false) events)
  /\ (forall toolCall,
         trace (executeTool toolCall st).2
         = trace st ++ [ToolRun (tc_name toolCall) (tc_input toolCall)]).
Proof.
  intros HM Hp Hok. split; [|intros toolCall; apply executeTool_runs].
  rewrite (chat_run st messages M ctx p HM Hp), Hok.
  eexists _, _. split; [reflexivity|].
  split; [|split; [reflexivity|]].
  - unfold parseResponse. cbn [ar_toolCalls]. rewrite toolCalls_omap.
    now destruct (omap requestedTool (rs_content response)).
  - eexists. split; [reflexivity|]. repeat constructor.
Qed.

(** C9, amended: chat leaves the message array and the context object
    as they were, and every other array and object of the store too;
    the events it adds are the one request to the backend and, when the
    backend call fails, one console.error entry for the error. *)
Theorem chat_reads_inputs_and_logs_failure st messages M ctx p :
  arrays st !! messages = Some M ->
  buildSystemPrompt ctx st = (Returned p, st) ->
  arrays (chat messages ctx st).2 = arrays st
  /\ objects (chat messages ctx st).2 = objects st
  /\ trace (chat messages ctx st).2
     = trace st ++ Create (chatRequest p M)
                :: match messages_create (chatRequest p M) with
                   | inl _ => []
                   | inr e => [ConsoleError "Claude API error:" e]
                   end.
Proof.
  intros HM Hp. rewrite (chat_run st messages M ctx p HM Hp).
  destruct (messages_create _); repeat split; reflexivity.
Qed.

Lemma find_isText_none (blocks : list (ContentBlock Value)) :
  (forall text, ~ In (TextBlock text) blocks) ->
  Forall (fun block => isText block = false) blocks.
Proof.
  induction blocks as [|block blocks IH]; intros Hnone; constructor.
  - destruct block as [text| | |]; try reflexivity.
    exfalso. apply (Hnone text). now left.
  - apply IH. intros text Hin. apply (Hnone text). now right.
Qed.

(** C10: the content chat returns is the text of the first text block
    of the response, whatever follows it, and the empty string when the
    response has no text block. *)
Theorem chat_content_first_text_block st messages M ctx p response :
  arrays st !! messages = Some M ->
  buildSystemPrompt ctx st = (Returned p, st) ->
  messages_create (chatRequest p M) = inl response ->
  exists r st',
    chat messages ctx st = (Returned r, st')
    /\ (forall before text after,
           rs_content response = before ++ TextBlock text :: after ->
           (forall earlier, ~ In (TextBlock earlier) before) ->
           ar_content r = text)
    /\ ((forall text, ~ In (TextBlock text) (rs_content response)) ->
        ar_content r = "").
Proof.
  intros HM Hp Hok. rewrite (chat_run st messages M ctx p HM Hp), Hok.
  eexists _, _. split; [reflexivity|].
  unfold parseResponse. cbn [ar_content]. split.
  - intros before text after -> Hbefore. apply find_isText_none in Hbefore.
    induction Hbefore as [|block before Hblock _ IH]; [reflexivity|].
    cbn [app List.find]. rewrite Hblock. exact IH.
  - intros Hnone. apply find_isText_none in Hnone.
    induction Hnone as [|block blocks Hblock _ IH]; [reflexivity|].
    cbn [List.find]. rewrite Hblock. exact IH.
Qed.

End Properties.
End AgentFacts.

Module HostFacts.
Import Utf16.

Lemma toLowerCase_nonempty (s : ustring) : Host.toLowerCase s = [] -> s = [].
Proof. destruct s; [reflexivity | discriminate]. Qed.

Lemma lowerFrom_latin1 (s : ustring) :
  Forall latin1 s -> forall casedBefore, Host.lowerFrom casedBefore s = map lowerLatin1 s.
Proof.
  induction 1 as [|u s Hu _ IH]; intros casedBefore; [reflexivity|].
  cbn [Host.lowerFrom map]. rewrite IH. f_equal.
  unfold latin1 in Hu.
  replace (u =? 0x3A3)%N with false by (symmetry; apply N.eqb_neq; lia).
  cbn [andb]. unfold Host.lowerUnit, Host.isUpperGreek.
  replace (0x391 <=? u)%N with false by (symmetry; apply N.leb_gt; lia).
  replace (0x3A3 <=? u)%N with false by (symmetry; apply N.leb_gt; lia).
  reflexivity.
Qed.

(** The lower-casing of the host as an instance of the built-in. *)
Definition lowerCase : LowerCase :=
  mkLowerCase Host.toLowerCase toLowerCase_nonempty
              (fun s Hs => lowerFrom_latin1 s Hs false).

End HostFacts.

Module EscalationFacts.
Import Utf16 Agent.

Lemma startsWith_split (search : ustring) :
  forall s, startsWith s search = true <-> exists rest, s = search ++ rest.
Proof.
  induction search as [|a search IH]; intros s.
  - destruct s; cbn; split; eauto.
  - destruct s as [|b s]; cbn [startsWith].
    + split; [discriminate | intros [rest H]; discriminate].
    + rewrite andb_true_iff, N.eqb_eq, IH. split.
      * intros [-> [rest ->]]. eauto.
      * intros [rest H]. injection H as -> ->. eauto.
Qed.

Lemma includes_occurs (s search : ustring) :
  includes s search = true <-> exists before after, s = before ++ search ++ after.
Proof.
  split.
  - induction s as [|c s IH]; cbn [includes]; rewrite orb_true_iff; intros [H|H].
    + apply startsWith_split in H as [rest H]. exists [], rest. exact H.
    + discriminate.
    + apply startsWith_split in H as [rest H]. exists [], rest. exact H.
    + destruct (IH H) as (before & after & ->). exists (c :: before), after. reflexivity.
  - intros (before & after & ->). induction before as [|c before IH].
    + cbn [app].
      assert (H : startsWith (search ++ after) search = true)
        by (apply startsWith_split; eauto).
      destruct (search ++ after); cbn [includes]; rewrite H; reflexivity.
    + cbn [app includes]. rewrite IH. apply orb_true_r.
Qed.

Lemma lower_empty (toLowerCase : LowerCase) : lower toLowerCase [] = [].
Proof. now rewrite lower_latin1 by constructor. Qed.

Ltac compare_units :=
  repeat match goal with
         | |- context [N.leb ?x ?y] => destruct (N.leb_spec x y); try lia
         | |- context [N.eqb ?x ?y] => destruct (N.eqb_spec x y); try lia
         end.

(** Two code units are the same letter exactly when lower-casing makes
    them equal. *)
Lemma sameLetter_lowerLatin1 (a b : N) :
  sameLetter a b = true <-> lowerLatin1 a = lowerLatin1 b.
Proof.
  unfold sameLetter, smallOf, lowerLatin1.
  split; compare_units; cbn; intros Hab;
    try reflexivity; try discriminate; try lia.
Qed.

Lemma sameText_lowerLatin1 (u : ustring) :
  forall t, sameText u t <-> map lowerLatin1 u = map lowerLatin1 t.
Proof.
  unfold sameText. induction u as [|a u IH]; intros [|b t]; cbn [map]; split; intros H;
    try reflexivity; try discriminate; try (now inversion H); try constructor.
  - inversion H as [|? ? ? ? Hab Hut]; subst.
    apply sameLetter_lowerLatin1 in Hab. apply IH in Hut. congruence.
  - injection H as Hab Hut. now apply sameLetter_lowerLatin1.
  - injection H as Hab Hut. now apply IH.
Qed.

(** C8, amended: shouldEscalate is a function of the message and of the
    trigger list alone; it answers true exactly when the lower-cased
    form of some trigger is a piece of the lower-cased message; and for
    a message and triggers whose code units lie below U+0100 that is
    exactly when some trigger equals, up to the case of letters, a piece
    of the message. *)
Theorem shouldEscalate_iff_trigger_occurs
        (toLowerCase : LowerCase) (agentConfig : AgentConfig) (message : ustring) :
  (shouldEscalate agentConfig toLowerCase message = true
   <-> exists trigger,
       In trigger (escalationTriggers agentConfig)
       /\ exists before after,
           lower toLowerCase message = before ++ lower toLowerCase trigger ++ after)
  /\ (Forall latin1 message ->
      Forall (Forall latin1) (escalationTriggers agentConfig) ->
      (shouldEscalate agentConfig toLowerCase message = true
       <-> exists trigger,
           In trigger (escalationTriggers agentConfig)
           /\ exists before piece after,
               message = before ++ piece ++ after
               /\ sameText piece trigger)).
Proof.
  split.
  - unfold shouldEscalate. rewrite existsb_exists.
    split; intros (trigger & Hin & H); exists trigger; (split; [exact Hin|]);
      now apply includes_occurs.
  - intros Hmessage Htriggers. unfold shouldEscalate.
    rewrite existsb_exists, (lower_latin1 toLowerCase message Hmessage).
    split; intros (trigger & Hin & H); exists trigger; (split; [exact Hin|]);
      pose proof (proj1 (List.Forall_forall _ _) Htriggers trigger Hin) as Htrigger;
      rewrite (lower_latin1 toLowerCase trigger Htrigger) in *.
    + apply includes_occurs in H as (a & b & H).
      apply map_eq_app in H as (before & rest & -> & _ & H).
      apply map_eq_app in H as (piece & after & -> & H & _).
      exists before, piece, after. split; [reflexivity|].
      now apply sameText_lowerLatin1.
    + destruct H as (before & piece & after & -> & H).
      apply sameText_lowerLatin1 in H.
      apply includes_occurs.
      exists (map lowerLatin1 before), (map lowerLatin1 after).
      now rewrite !map_app, H.
Qed.

End EscalationFacts.

Module OnboardingFacts.
Import Onboarding.

Section Properties.

Context {Data Err : Type}.
Variable accepts : list (Configuration Data) -> Configuration Data -> bool.
Variable toISOString : nat -> string.
Variable fetch : ProvisionBody Data -> option Err.

Local Abbreviation completeOnboarding :=
  (Onboarding.completeOnboarding Data Err accepts toISOString fetch).
Local Abbreviation completeTimes :=
  (Onboarding.completeTimes Data Err accepts toISOString fetch).

Implicit Types w : World Data.

Lemma completeOnboarding_provisions userId flowId allData w :
  provisionRequests (completeOnboarding userId flowId allData w).2
  = provisionRequests w ++ [mkProvisionBody userId flowId allData].
Proof.
  unfold Onboarding.completeOnboarding, readClock, postProvision, insert.
  cbn. destruct (accepts _ _); reflexivity.
Qed.

Lemma completeOnboarding_inserts userId flowId allData w :
  (forall rows row, accepts rows row = true) ->
  agent_configurations (completeOnboarding userId flowId allData w).2
  = agent_configurations w
    ++ [mkConfiguration userId flowId allData "active" (toISOString (clockReadings w))].
Proof.
  intros Hacc.
  unfold Onboarding.completeOnboarding, readClock, postProvision, insert.
  cbn. now rewrite Hacc.
Qed.

Lemma completeTimes_requests n userId flowId allData :
  forall w,
    provisionRequests (completeTimes n userId flowId allData w)
    = provisionRequests w ++ repeat (mkProvisionBody userId flowId allData) n.
Proof.
  induction n as [|n IH]; intros w; cbn [Onboarding.completeTimes repeat].
  - now rewrite app_nil_r.
  - rewrite IH, completeOnboarding_provisions, <- app_assoc. reflexivity.
Qed.

Lemma completeTimes_rows n userId flowId allData :
  (forall rows row, accepts rows row = true) ->
  forall w,
    length (agent_configurations (completeTimes n userId flowId allData w))
    = length (agent_configurations w) + n.
Proof.
  intros Hacc. induction n as [|n IH]; intros w; cbn [Onboarding.completeTimes].
  - lia.
  - rewrite IH, completeOnboarding_inserts, length_app by exact Hacc. cbn. lia.
Qed.

(** C2, amended: completeOnboarding keeps no record of the flows it has
    completed; every invocation posts one provisioning request, so the
    completion path requested n times for a flow posts n requests for
    it, and on a table that takes every row it leaves n more
    configurations. *)
Theorem completeTimes_provisions_each_time n userId flowId allData w :
  provisionRequests (completeTimes n userId flowId allData w)
  = provisionRequests w ++ repeat (mkProvisionBody userId flowId allData) n
  /\ ((forall rows row, accepts rows row = true) ->
      length (agent_configurations (completeTimes n userId flowId allData w))
      = length (agent_configurations w) + n).
Proof.
  split.
  - apply completeTimes_requests.
  - intros Hacc. now apply completeTimes_rows.
Qed.

End Properties.
End OnboardingFacts.

Module Scenarios.
Import Template Agent AgentFacts EscalationFacts OnboardingFacts.

(** Scenario C of the specification. *)
Example escalate_manager :
  shouldEscalate (Host.config "") HostFacts.lowerCase
                 (Utf16.units "I want to speak to a manager")
  = true.
Proof. reflexivity. Qed.

Example escalate_checking_in :
  shouldEscalate (Host.config "") HostFacts.lowerCase (Utf16.units "just checking in")
  = false.
Proof. reflexivity. Qed.

Example escalate_upper_case :
  shouldEscalate (Host.config "") HostFacts.lowerCase (Utf16.units "This means a LAWSUIT!")
  = true.
Proof. reflexivity. Qed.

(** The capital sigma at the end of a word and the capital sigma that
    stands alone have different lower-case forms. *)
Example lower_final_sigma :
  Utf16.lower HostFacts.lowerCase [0x391; 0x3A3]%N = [0x3B1; 0x3C2]%N
  /\ Utf16.lower HostFacts.lowerCase [0x3A3]%N = [0x3C3]%N
  /\ Utf16.lower HostFacts.lowerCase [0x3A3; 0x391]%N = [0x3C3; 0x3B1]%N.
Proof. repeat split; reflexivity. Qed.

Example replace_twice :
  RegExp.replacePlaceholder "a" "X" "1{{a}}2{{b}}3{{a}}" = Some "1X2{{b}}3X".
Proof. reflexivity. Qed.

Example replace_patterns :
  RegExp.replacePlaceholder "a" "<$$|$&|$`|$'|$1>" "1{{a}}2"
  = Some "1<$|{{a}}|1|2|$1>2".
Proof. reflexivity. Qed.

(** A value that names the placeholder of a later entry is itself
    substituted when that entry is reached. *)
Example replace_chained :
  replaceEntries Host.ToString
    [("a", Host.Prim (Host.Str "{{b}}")); ("b", Host.Prim (Host.Str "X"))]
    "{{a}} and {{b}}"
  = Some "X and X".
Proof. reflexivity. Qed.

(** C1, witness: a template with a key the context holds and a key it
    does not hold. *)
Lemma chat_substitutes_placeholders_witness :
  exists events,
    trace (chat Host.ToString (Host.config (show Host.greeting)) [] (Host.answers Host.textAnswer)
                0 (Some 1) (Host.store Host.hello Host.acme)).2
    = [] ++ events
    /\ map rq_system (requestsOf events)
       = ["You work for Acme. Default markup: {{markup_percentage}}%"].
Proof.
  apply (chat_substitutes_placeholders Host.ToString (Host.config (show Host.greeting)) []
           (Host.answers Host.textAnswer) (Host.store Host.hello Host.acme)
           0 Host.hello 1 Host.acme Host.greeting).
  - reflexivity.
  - reflexivity.
  - repeat constructor.
  - repeat constructor.
  - reflexivity.
Defined.

(** C1, counterexample: the first value names the placeholder of the
    second key, and the second entry substitutes it inside the first
    value; the claim has the first value itself in the prompt. *)
Lemma chat_chained_value_counterexample :
  map rq_system
      (requestsOf
         (trace (chat Host.ToString (Host.config (show Host.profile)) []
                      (Host.answers Host.textAnswer)
                      0 (Some 1) (Host.store Host.hello Host.chained)).2))
  = ["Company: roofing Masters. Specialty: roofing."]
  /\ specSubstitute (map (fun e => (e.1, Host.ToString e.2)) Host.chained) Host.profile
     = "Company: {{company_specialty}} Masters. Specialty: roofing."
  /\ "Company: roofing Masters. Specialty: roofing."
     <> "Company: {{company_specialty}} Masters. Specialty: roofing.".
Proof. vm_compute. repeat split; discriminate. Qed.

(** A value with dollar signs is read as a replacement pattern: of
    three dollar signs two reach the prompt. *)
Example dollar_value_is_a_pattern :
  map rq_system
      (requestsOf
         (trace (chat Host.ToString (Host.config (show Host.priceTier)) []
                      (Host.answers Host.textAnswer)
                      0 (Some 1) (Host.store Host.hello Host.threeDollars)).2))
  = ["Price tier: $$"].
Proof. vm_compute. reflexivity. Qed.

(** C2, witness: two completions of one flow on a table that takes every
    row. *)
Lemma completeTimes_provisions_each_time_witness :
  Onboarding.provisionRequests
    (Onboarding.completeTimes Host.Data Host.Err Host.anyRow Host.clock Host.reachable
                              2 "user-1" "construction-rfq" Host.acmeData Host.emptyWorld)
  = [] ++ repeat (Onboarding.mkProvisionBody "user-1" "construction-rfq" Host.acmeData) 2
  /\ length
       (Onboarding.agent_configurations
          (Onboarding.completeTimes Host.Data Host.Err Host.anyRow Host.clock Host.reachable
                                    2 "user-1" "construction-rfq" Host.acmeData
                                    Host.emptyWorld))
     = 0 + 2.
Proof.
  destruct (completeTimes_provisions_each_time Host.anyRow Host.clock Host.reachable
              2 "user-1" "construction-rfq" Host.acmeData Host.emptyWorld)
    as [Hrequests Hrows].
  split.
  - exact Hrequests.
  - apply Hrows. intros rows row. reflexivity.
Defined.

(** C2, counterexample: the first call completes the flow; the same
    call made again posts a second provisioning request and stores a
    second configuration. *)
Lemma completeOnboarding_twice_counterexample :
  Onboarding.provisionRequests
    (Onboarding.completeOnboarding Host.Data Host.Err Host.anyRow Host.clock Host.reachable
       "user-1" "construction-rfq" Host.acmeData
       (Onboarding.completeOnboarding Host.Data Host.Err Host.anyRow Host.clock
          Host.reachable "user-1" "construction-rfq" Host.acmeData Host.emptyWorld).2).2
  = [Onboarding.mkProvisionBody "user-1" "construction-rfq" Host.acmeData;
     Onboarding.mkProvisionBody "user-1" "construction-rfq" Host.acmeData]
  /\ Onboarding.agent_configurations
       (Onboarding.completeOnboarding Host.Data Host.Err Host.anyRow Host.clock
          Host.reachable "user-1" "construction-rfq" Host.acmeData
          (Onboarding.completeOnboarding Host.Data Host.Err Host.anyRow Host.clock
             Host.reachable "user-1" "construction-rfq" Host.acmeData Host.emptyWorld).2).2
     = [Onboarding.mkConfiguration "user-1" "construction-rfq" Host.acmeData "active"
          "2025-01-01T00:00:00.000Z";
        Onboarding.mkConfiguration "user-1" "construction-rfq" Host.acmeData "active"
          "2025-01-01T00:00:00.000Z"].
Proof. split; reflexivity. Qed.

(** C3, witness: the continuation of scenario B. *)
Lemma continueWithToolResult_appends_call_then_result_witness :
  continueWithToolResult Host.ToString Host.JSON_stringify (Host.config "Be brief.")
                         [Host.lookupTool] (Host.answers Host.textAnswer)
                         0 Host.lookupCall (Host.Prim (Host.Str "found")) None
                         (Host.store Host.hello [])
  = chat Host.ToString (Host.config "Be brief.") [Host.lookupTool]
         (Host.answers Host.textAnswer)
         (fresh (dom (arrays (Host.store Host.hello [])))) None
         (mkState
            (<[fresh (dom (arrays (Host.store Host.hello []))) :=
                 Host.hello
                 ++ [mkChatMessage assistant
                       (Parts [ToolUsePart "toolu_1" "lookup"
                                 (Host.Object [("id", Host.Str "42")])]);
                     mkChatMessage user
                       (Parts [ToolResultPart "toolu_1"
                                 (Host.JSON_stringify (Host.Prim (Host.Str "found")))])]]>
               (arrays (Host.store Host.hello [])))
            (objects (Host.store Host.hello []))
            (trace (Host.store Host.hello [])))
  /\ (exists events,
         trace (continueWithToolResult Host.ToString Host.JSON_stringify
                  (Host.config "Be brief.") [Host.lookupTool]
                  (Host.answers Host.textAnswer)
                  0 Host.lookupCall (Host.Prim (Host.Str "found")) None
                  (Host.store Host.hello [])).2
         = [] ++ events
         /\ requestsOf events
            = [chatRequest (Host.config "Be brief.") [Host.lookupTool] "Be brief."
                 (Host.hello
                  ++ [mkChatMessage assistant
                        (Parts [ToolUsePart "toolu_1" "lookup"
                                  (Host.Object [("id", Host.Str "42")])]);
                      mkChatMessage user
                        (Parts [ToolResultPart "toolu_1"
                                  (Host.JSON_stringify (Host.Prim (Host.Str "found")))])])]
         /\ map rq_messages (requestsOf events)
            = [[mkChatMessage user (Text "Hello");
                mkChatMessage assistant
                  (Parts [ToolUsePart "toolu_1" "lookup"
                            (Host.Object [("id", Host.Str "42")])]);
                mkChatMessage user
                  (Parts [ToolResultPart "toolu_1"
                            (Some (String Host.quotationMark
                                     ("found" +:+ String Host.quotationMark "")))])]]
         /\ map rq_system (requestsOf events) = ["Be brief."])
  /\ arrays (continueWithToolResult Host.ToString Host.JSON_stringify
               (Host.config "Be brief.") [Host.lookupTool]
               (Host.answers Host.textAnswer)
               0 Host.lookupCall (Host.Prim (Host.Str "found")) None
               (Host.store Host.hello [])).2 !! 0
     = Some [mkChatMessage user (Text "Hello")].
Proof.
  apply (continueWithToolResult_appends_call_then_result
           Host.ToString Host.JSON_stringify (Host.config "Be brief.") [Host.lookupTool]
           (Host.answers Host.textAnswer) (Host.store Host.hello [])
           0 Host.hello Host.lookupCall (Host.Prim (Host.Str "found")) None "Be brief.").
  - reflexivity.
  - reflexivity.
Defined.

Example continuation_request :
  map rq_messages
      (requestsOf
         (trace (continueWithToolResult Host.ToString Host.JSON_stringify
                   (Host.config "Be brief.") [Host.lookupTool]
                   (Host.answers Host.textAnswer)
                   0 Host.lookupCall (Host.Prim (Host.Str "found")) None
                   (Host.store Host.hello [])).2))
  = [[mkChatMessage user (Text "Hello");
      mkChatMessage assistant
        (Parts [ToolUsePart "toolu_1" "lookup" (Host.Object [("id", Host.Str "42")])]);
      mkChatMessage user
        (Parts [ToolResultPart "toolu_1"
                  (Some (String Host.quotationMark ("found" +:+ String Host.quotationMark "")))])]].
Proof. vm_compute. reflexivity. Qed.

(** C4, witness: one tool is defined and the stream has two text deltas
    among its events. *)
Lemma streamChat_request_without_tools_witness :
  exists submitted streamed,
    (exists events,
        trace (chat Host.ToString (Host.config "Be brief.") [Host.lookupTool]
                    (Host.answers Host.textAnswer) 0 None (Host.store Host.hello [])).2
        = [] ++ events
        /\ requestsOf events = [submitted])
    /\ trace (streamChat Host.ToString (Host.config "Be brief.") (Host.emits Host.deltas)
                         0 None (Host.store Host.hello [])).2
       = [] ++ [Stream streamed]
    /\ rq_system submitted = "Be brief." /\ rq_system streamed = "Be brief."
    /\ rq_messages submitted = [mkChatMessage user (Text "Hello")]
    /\ rq_messages streamed = [mkChatMessage user (Text "Hello")]
    /\ rq_model submitted = "claude-sonnet-4-20250514"
    /\ rq_model streamed = "claude-sonnet-4-20250514"
    /\ rq_max_tokens submitted = 1024%Z /\ rq_max_tokens streamed = 1024%Z
    /\ rq_tools submitted
       = Some [mkTool "lookup" "Look up a record by id"
                 (Host.Object [("type", Host.Str "object")])]
    /\ rq_tools streamed = None
    /\ (streamed = submitted <-> [Host.lookupTool] = [])
    /\ (streamChat Host.ToString (Host.config "Be brief.") (Host.emits Host.deltas)
                   0 None (Host.store Host.hello [])).1.1
       = ["Hel"; "lo"].
Proof.
  apply (streamChat_request_without_tools
           Host.ToString (Host.config "Be brief.") [Host.lookupTool]
           (Host.answers Host.textAnswer)
           (Host.emits Host.deltas) (Host.store Host.hello []) 0 Host.hello None "Be brief.").
  - reflexivity.
  - reflexivity.
Defined.

Example stream_fragments :
  (streamChat Host.ToString (Host.config "Be brief.") (Host.emits Host.deltas)
              0 None (Host.store Host.hello [])).1.1
  = ["Hel"; "lo"].
Proof. reflexivity. Qed.

(** C4, counterexample: with one tool defined, chat names the tool in
    its request and streamChat names none. *)
Lemma streamChat_omits_tools_counterexample :
  map rq_tools
      (requestsOf
         (trace (chat Host.ToString (Host.config "Be brief.") [Host.lookupTool]
                      (Host.answers Host.textAnswer)
                      0 None (Host.store Host.hello [])).2))
  = [Some [mkTool "lookup" "Look up a record by id"
             (Host.Object [("type", Host.Str "object")])]]
  /\ map rq_tools
         (requestsOf
            (trace (streamChat Host.ToString (Host.config "Be brief.")
                               (Host.emits Host.deltas)
                               0 None (Host.store Host.hello [])).2))
     = [None].
Proof. split; vm_compute; reflexivity. Qed.

(** C5, witness: the empty list with a backend that answers. *)
Lemma chat_submits_empty_list_witness :
  (exists events,
      trace (chat Host.ToString (Host.config "Be brief.") [] (Host.answers Host.textAnswer)
                  0 None (Host.store [] [])).2
      = trace (Host.store [] []) ++ events
      /\ requestsOf events = [chatRequest (Host.config "Be brief.") [] "Be brief." []])
  /\ (chat Host.ToString (Host.config "Be brief.") [] (Host.answers Host.textAnswer)
           0 None (Host.store [] [])).1
     = match Host.answers Host.textAnswer
               (chatRequest (Host.config "Be brief.") [] "Be brief." []) with
       | inl response => Returned (parseResponse response)
       | inr e => Thrown e
       end.
Proof.
  apply (chat_submits_empty_list Host.ToString (Host.config "Be brief.") []
           (Host.answers Host.textAnswer) (Host.store [] []) 0 None "Be brief.").
  - reflexivity.
  - reflexivity.
Defined.

(** C5, counterexample: for the empty list chat throws nothing of its
    own; it submits a request without messages and returns the answer,
    and when the backend refuses the request, the request has been
    submitted all the same. *)
Lemma chat_empty_list_counterexample :
  (chat Host.ToString (Host.config "Be brief.") [] (Host.answers Host.textAnswer)
        0 None (Host.store [] [])).1
  = Returned (mkAgentResponse "Hi there" None (Some "end_turn"))
  /\ map rq_messages
         (requestsOf
            (trace (chat Host.ToString (Host.config "Be brief.") []
                         (Host.answers Host.textAnswer)
                         0 None (Host.store [] [])).2))
     = [[]]
  /\ map rq_messages
         (requestsOf
            (trace (chat Host.ToString (Host.config "Be brief.") []
                         (Host.unavailable "invalid_request_error")
                         0 None (Host.store [] [])).2))
     = [[]].
Proof. repeat split; vm_compute; reflexivity. Qed.

(** C6, witness: a backend that times out. *)
Lemma chat_rethrows_backend_error_witness :
  exists st' events,
    chat Host.ToString (Host.config "Be brief.") [] (Host.unavailable "ETIMEDOUT")
         0 None (Host.store Host.hello [])
    = (Thrown "ETIMEDOUT", st')
    /\ arrays st' = arrays (Host.store Host.hello [])
    /\ objects st' = objects (Host.store Host.hello [])
    /\ trace st' = trace (Host.store Host.hello []) ++ events
    /\ events
       = [Create (chatRequest (Host.config "Be brief.") [] "Be brief." Host.hello);
          ConsoleError "Claude API error:" "ETIMEDOUT"]
    /\ requestsOf events
       = [chatRequest (Host.config "Be brief.") [] "Be brief." Host.hello].
Proof.
  apply (chat_rethrows_backend_error Host.ToString (Host.config "Be brief.") []
           (Host.unavailable "ETIMEDOUT") (Host.store Host.hello [])
           0 Host.hello None "Be brief." "ETIMEDOUT").
  - reflexivity.
  - reflexivity.
  - reflexivity.
Defined.

(** Scenario B of the specification: the response asks for one tool. *)
Lemma chat_returns_tool_calls_unexecuted_witness :
  (exists r st',
      chat Host.ToString (Host.config "Be brief.") [Host.lookupTool]
           (Host.answers Host.lookupAnswer) 0 None (Host.store Host.hello [])
      = (Returned r, st')
      /\ ar_toolCalls r
         = Some [mkToolCall "toolu_1" "lookup" (Host.Object [("id", Host.Str "42")])]
      /\ ar_stopReason r = Some "tool_use"
      /\ exists events,
          trace st' = trace (Host.store Host.hello []) ++ events
          /\ Forall (fun ev => isToolRun ev = false) events)
  /\ (forall toolCall,
         trace (executeTool Host.runs toolCall (Host.store Host.hello [])).2
         = trace (Host.store Host.hello [])
           ++ [ToolRun (tc_name toolCall) (tc_input toolCall)]).
Proof.
  apply (chat_returns_tool_calls_unexecuted Host.ToString (Host.config "Be brief.")
           [Host.lookupTool] (Host.answers Host.lookupAnswer) Host.runs
           (Host.store Host.hello [])
           0 Host.hello None "Be brief." Host.lookupAnswer).
  - reflexivity.
  - reflexivity.
  - reflexivity.
Defined.

(** C7, the code at the failing input: the backend ends its response
    with the stop_reason refusal, which the wrapper's type does not
    list, and chat returns it as the stopReason of a result that is
    declared to have one of the three listed. *)
Lemma chat_returns_undeclared_stop_reason :
  (chat Host.ToString (Host.config "Be brief.") [] (Host.answers Host.refusalAnswer)
        0 None (Host.store Host.hello [])).1
  = Returned (mkAgentResponse "I can not help with that." None (Some "refusal"))
  /\ declaredStopReasons = ["end_turn"; "tool_use"; "max_tokens"]
  /\ existsb (String.eqb "refusal") declaredStopReasons = false.
Proof. repeat split; vm_compute; reflexivity. Qed.

(** C9, witness: a backend that answers. *)
Lemma chat_reads_inputs_and_logs_failure_witness :
  arrays (chat Host.ToString (Host.config (show Host.greeting)) []
               (Host.answers Host.textAnswer)
               0 (Some 1) (Host.store Host.hello Host.acme)).2
  = arrays (Host.store Host.hello Host.acme)
  /\ objects (chat Host.ToString (Host.config (show Host.greeting)) []
                   (Host.answers Host.textAnswer)
                   0 (Some 1) (Host.store Host.hello Host.acme)).2
     = objects (Host.store Host.hello Host.acme)
  /\ trace (chat Host.ToString (Host.config (show Host.greeting)) []
                 (Host.answers Host.textAnswer)
                 0 (Some 1) (Host.store Host.hello Host.acme)).2
     = trace (Host.store Host.hello Host.acme)
       ++ Create (chatRequest (Host.config (show Host.greeting)) []
                    "You work for Acme. Default markup: {{markup_percentage}}%" Host.hello)
          :: match Host.answers Host.textAnswer
                     (chatRequest (Host.config (show Host.greeting)) []
                        "You work for Acme. Default markup: {{markup_percentage}}%"
                        Host.hello) with
             | inl _ => []
             | inr e => [ConsoleError "Claude API error:" e]
             end.
Proof.
  apply (chat_reads_inputs_and_logs_failure Host.ToString (Host.config (show Host.greeting))
           [] (Host.answers Host.textAnswer) (Host.store Host.hello Host.acme)
           0 Host.hello (Some 1)
           "You work for Acme. Default markup: {{markup_percentage}}%").
  - reflexivity.
  - reflexivity.
Defined.

(** C9, counterexample: when the backend call fails, chat writes to the
    console besides calling the backend. *)
Lemma chat_logs_failure_counterexample :
  trace (chat Host.ToString (Host.config "Be brief.") [] (Host.unavailable "ETIMEDOUT")
              0 None (Host.store Host.hello [])).2
  = [Create (chatRequest (Host.config "Be brief.") [] "Be brief." Host.hello);
     ConsoleError "Claude API error:" "ETIMEDOUT"]
  /\ List.filter (fun ev => negb (isBackendCall ev))
                 (trace (chat Host.ToString (Host.config "Be brief.") []
                              (Host.unavailable "ETIMEDOUT")
                              0 None (Host.store Host.hello [])).2)
     = [ConsoleError "Claude API error:" "ETIMEDOUT"].
Proof. split; vm_compute; reflexivity. Qed.

(** C8, witness: the trigger in capitals inside a message in mixed
    case. *)
Lemma shouldEscalate_iff_trigger_occurs_witness :
  Forall Utf16.latin1 (Utf16.units "This means a LAWSUIT!")
  /\ Forall (Forall Utf16.latin1) (escalationTriggers (Host.config ""))
  /\ exists trigger,
      In trigger [Utf16.units "manager"; Utf16.units "lawsuit"]
      /\ exists before piece after,
          Utf16.units "This means a LAWSUIT!" = before ++ piece ++ after
          /\ Utf16.sameText piece trigger.
Proof.
  assert (Hmessage : Forall Utf16.latin1 (Utf16.units "This means a LAWSUIT!"))
    by (repeat constructor).
  assert (Htriggers : Forall (Forall Utf16.latin1) (escalationTriggers (Host.config "")))
    by (repeat constructor).
  split; [exact Hmessage|]. split; [exact Htriggers|].
  apply (proj2 (shouldEscalate_iff_trigger_occurs HostFacts.lowerCase (Host.config "")
                  (Utf16.units "This means a LAWSUIT!")) Hmessage Htriggers).
  reflexivity.
Defined.

(** C8, counterexample: the trigger is a capital sigma and the message
    is a capital alpha followed by a capital sigma, so the trigger is a
    piece of the message as it stands.  Lower-casing turns the sigma of
    the message, which ends a word, into the final sigma U+03C2 and the
    sigma of the trigger into U+03C3, and shouldEscalate answers
    false. *)
Lemma shouldEscalate_final_sigma_counterexample :
  shouldEscalate (mkAgentConfig "" "claude-sonnet-4-20250514" [[0x3A3]%N])
                 HostFacts.lowerCase [0x391; 0x3A3]%N
  = false
  /\ [0x391; 0x3A3]%N = [0x391]%N ++ [0x3A3]%N ++ []
  /\ Utf16.lower HostFacts.lowerCase [0x391; 0x3A3]%N = [0x3B1; 0x3C2]%N
  /\ Utf16.lower HostFacts.lowerCase [0x3A3]%N = [0x3C3]%N.
Proof. repeat split; reflexivity. Qed.

(** C10, witness: a response with a thinking block, a text block, a
    tool_use block and a second text block. *)
Lemma chat_content_first_text_block_witness :
  exists r st',
    chat Host.ToString (Host.config "Be brief.") [Host.lookupTool]
         (Host.answers Host.lookupAnswer) 0 None (Host.store Host.hello [])
    = (Returned r, st')
    /\ ar_content r = "Let me check.".
Proof.
  destruct (chat_content_first_text_block Host.ToString (Host.config "Be brief.")
              [Host.lookupTool] (Host.answers Host.lookupAnswer) (Host.store Host.hello [])
              0 Host.hello None "Be brief." Host.lookupAnswer
              eq_refl eq_refl eq_refl)
    as (r & st' & Hrun & Hfirst & _).
  exists r, st'. split; [exact Hrun|].
  apply (Hfirst [ThinkingBlock "plan" "sig"] "Let me check."
                [ToolUseBlock "toolu_1" "lookup" (Host.Object [("id", Host.Str "42")]);
                 TextBlock "One moment."]).
  - reflexivity.
  - intros earlier [Hin|[]]. discriminate Hin.
Defined.

Example first_text_only :
  (chat Host.ToString (Host.config "Be brief.") [Host.lookupTool]
        (Host.answers Host.lookupAnswer) 0 None (Host.store Host.hello [])).1
  = Returned (mkAgentResponse "Let me check."
                (Some [mkToolCall "toolu_1" "lookup" (Host.Object [("id", Host.Str "42")])])
                (Some "tool_use")).
Proof. vm_compute. reflexivity. Qed.

End Scenarios.

Module PatternFacts.
Import JsString RegExp Template Pattern StringFacts TemplateFacts.

#[local] Arguments String.append !s1 s2 / : simpl nomatch.

(** A subject without the pattern passes unchanged. *)
Lemma replaceScan_absent (pat template : string) (s : string) :
  forall before,
    includes s pat = false ->
    replaceScan pat template before 0 s = s.
Proof.
  induction s as [|c s IH]; intros before H; [reflexivity|].
  cbn [includes] in H. apply orb_false_iff in H as [Hp Hs].
  cbn [replaceScan]. rewrite Hp, IH by exact Hs. reflexivity.
Qed.

Lemma getSubstitution_contextFree_length (n : nat) :
  forall template matched before after matched' before' after',
    String.length template <= n ->
    contextFree template = true ->
    getSubstitution matched before after template
    = getSubstitution matched' before' after' template.
Proof.
  induction n as [|n IH]; intros [|c tl] m b a m' b' a' Hlen Hfree;
    try reflexivity; cbn [String.length] in Hlen; [lia|].
  cbn [getSubstitution contextFree] in *.
  destruct (Ascii.eqb c "$").
  - destruct tl as [|d rest]; [reflexivity|].
    cbn [String.length] in Hlen.
    destruct (Ascii.eqb d "$").
    + f_equal. apply IH; [lia | exact Hfree].
    + destruct (Ascii.eqb d "&"); [discriminate|].
      destruct (Ascii.eqb d "`"); [discriminate|].
      destruct (Ascii.eqb d "'"); [discriminate|].
      cbn [orb] in Hfree. f_equal. apply IH; [cbn [String.length]; lia | exact Hfree].
  - f_equal. apply IH; [lia | exact Hfree].
Qed.

(** The expansion of a context-free replacement text is the same at
    every match. *)
Lemma getSubstitution_contextFree (template matched before after : string) :
  contextFree template = true ->
  getSubstitution matched before after template = expansion template.
Proof.
  intros H. unfold expansion.
  now apply (getSubstitution_contextFree_length (String.length template)).
Qed.

Lemma replaceScan_show_expanded (key value : string) (toks : list Token) :
  braceFree key = true ->
  contextFree value = true ->
  loneBraces (expansion value) = true ->
  Forall (fun tok => wellFormedToken tok = true) toks ->
  forall before,
    replaceScan (placeholder key) value before 0 (show toks)
    = show (map (bindSlot key (expansion value)) toks).
Proof.
  intros Hkey Hfree Hlone Htoks.
  induction Htoks as [|tok toks Htok _ IH]; intros before; [reflexivity|].
  cbn [show map]. destruct tok as [text|k]; cbn [showToken bindSlot].
  - rewrite replaceScan_text by exact Htok. now rewrite IH.
  - destruct (String.eqb_spec k key) as [->|Hne].
    + rewrite replaceScan_same.
      rewrite getSubstitution_contextFree by exact Hfree.
      cbn [showToken]. f_equal. apply IH.
    + rewrite replaceScan_other by (try exact Htok; assumption).
      cbn [showToken]. f_equal. apply IH.
Qed.

Lemma bindSlot_loneBraces (key value : string) (toks : list Token) :
  loneBraces value = true ->
  Forall (fun tok => wellFormedToken tok = true) toks ->
  Forall (fun tok => wellFormedToken tok = true) (map (bindSlot key value) toks).
Proof.
  intros Hlone Htoks.
  induction Htoks as [|tok toks Htok _ IH]; constructor; [|exact IH].
  destruct tok as [text|k]; cbn [bindSlot]; [exact Htok|].
  destruct (String.eqb k key); [exact Hlone | exact Htok].
Qed.

Lemma dollars_cases (n : nat) :
  (contextFree (dollars n) = true
   /\ expansion (dollars n) = dollars ((n + 1) / 2))
  /\ (contextFree (dollars (S n)) = true
      /\ expansion (dollars (S n)) = dollars ((S n + 1) / 2)).
Proof.
  induction n as [|n [IH0 IH1]].
  - repeat split; reflexivity.
  - split; [exact IH1|].
    destruct IH0 as [Hfree Hexp]. split.
    + exact Hfree.
    + change (expansion (dollars (S (S n))))
        with (String "$" (expansion (dollars n))).
      rewrite Hexp.
      replace ((S (S n) + 1) / 2) with (S ((n + 1) / 2)); [reflexivity|].
      replace (S (S n) + 1) with ((n + 1) + 1 * 2) by lia.
      rewrite Nat.div_add by lia. lia.
Qed.

Lemma dollars_loneBraces (n : nat) : loneBraces (dollars n) = true.
Proof. induction n as [|n IH]; [reflexivity|]. cbn [dollars loneBraces]. now rewrite IH. Qed.

Lemma valueOf_permutation (entries entries' : list (string * string)) (key : string) :
  Permutation entries entries' ->
  NoDup (map fst entries) ->
  valueOf entries key = valueOf entries' key.
Proof.
  induction 1 as [|[k v] l l' Hperm IH|[k1 v1] [k2 v2] l|l1 l2 l3 H12 IH12 H23 IH23];
    intros Hnodup.
  - reflexivity.
  - cbn [valueOf]. destruct (String.eqb k key); [reflexivity|].
    apply IH. cbn [map fst] in Hnodup. now apply NoDup_cons_1_2 in Hnodup.
  - cbn [valueOf]. cbn [map fst] in Hnodup.
    apply NoDup_cons in Hnodup as [Hnotin _].
    destruct (String.eqb_spec k1 key) as [->|]; [|reflexivity].
    destruct (String.eqb_spec k2 key) as [->|]; [|reflexivity].
    exfalso. apply Hnotin. left.
  - rewrite IH12 by exact Hnodup. apply IH23.
    assert (Hp : map fst l1 ≡ₚ map fst l2) by now apply Permutation_map.
    rewrite <- Hp. exact Hnodup.
Qed.

Lemma specSubstitute_permutation (entries entries' : list (string * string))
      (toks : list Token) :
  Permutation entries entries' ->
  NoDup (map fst entries) ->
  specSubstitute entries toks = specSubstitute entries' toks.
Proof.
  intros Hperm Hnodup. induction toks as [|tok toks IH]; [reflexivity|].
  cbn [specSubstitute]. rewrite IH. f_equal.
  destruct tok as [text|k]; cbn [specSubstituteToken]; [reflexivity|].
  now rewrite (valueOf_permutation entries entries' k Hperm Hnodup).
Qed.

End PatternFacts.

Module PromptFacts.
Import JsString RegExp Template Pattern StringFacts TemplateFacts PatternFacts Agent AgentFacts.

Section Properties.

Context {Value Err : Type}.
Variable ToString : Value -> string.
Variable JSON_stringify : Value -> option string.
Variable agentConfig : AgentConfig.
Variable toolDefinitions : list (ToolDefinition Value).
Variable messages_create : Request Value -> Response Value + Err.
Variable messages_stream : Request Value -> list StreamEvent * option Err.

Local Abbreviation chat := (Agent.chat ToString agentConfig toolDefinitions messages_create).
Local Abbreviation buildSystemPrompt := (Agent.buildSystemPrompt (Err:=Err) ToString agentConfig).
Local Abbreviation chatRequest := (Agent.chatRequest agentConfig toolDefinitions).
Local Abbreviation streamRequest := (Agent.streamRequest (Value:=Value) agentConfig).
Local Abbreviation streamChat := (Agent.streamChat ToString agentConfig messages_stream).
Local Abbreviation continueWithToolResult :=
  (Agent.continueWithToolResult ToString JSON_stringify agentConfig toolDefinitions
                                messages_create).

Implicit Types st : State Value Err.
Implicit Types M : list (ChatMessage Value).

(** What [chat] submits once the prompt is known. *)
Lemma chat_submits st messages M ctx p :
  arrays st !! messages = Some M ->
  buildSystemPrompt ctx st = (Returned p, st) ->
  exists events,
    trace (chat messages ctx st).2 = trace st ++ events
    /\ requestsOf events = [chatRequest p M].
Proof.
  intros HM Hp. rewrite (chat_run ToString agentConfig toolDefinitions messages_create
                           st messages M ctx p HM Hp).
  destruct (messages_create _) as [response|e]; cbn [snd trace];
    eexists; (split; [reflexivity|]); reflexivity.
Qed.

Lemma replaceEntries_absent (entries : list (string * Value)) (prompt : string) :
  Forall (fun e => plainKey e.1 = true
                   /\ includes prompt (placeholder e.1) = false) entries ->
  replaceEntries ToString entries prompt = Some prompt.
Proof.
  induction 1 as [|[key value] entries [Hkey Habsent] _ IH]; [reflexivity|].
  cbn [replaceEntries fst] in *. unfold replacePlaceholder. rewrite Hkey.
  rewrite replaceScan_absent by exact Habsent. exact IH.
Qed.

(** X1: context entries whose placeholder the template does not hold
    change nothing: when no key of the context occurs as a placeholder
    in the system prompt, whatever the prompt and the values are, chat
    submits the prompt as it is configured. *)
Theorem chat_prompt_unchanged_by_unused_keys st messages M ctx entries :
  arrays st !! messages = Some M ->
  objects st !! ctx = Some entries ->
  Forall (fun e => plainKey e.1 = true
                   /\ includes (systemPrompt agentConfig) (placeholder e.1) = false)
         entries ->
  exists events,
    trace (chat messages (Some ctx) st).2 = trace st ++ events
    /\ map rq_system (requestsOf events) = [systemPrompt agentConfig].
Proof.
  intros HM Hctx Hentries.
  pose proof (replaceEntries_absent entries _ Hentries) as Hp.
  destruct (chat_submits st messages M (Some ctx) _ HM
              (buildSystemPrompt_some ToString agentConfig _ _ _ _ Hctx Hp))
    as (events & Htrace & Hreq).
  exists events. split; [exact Htrace|]. now rewrite Hreq.
Qed.

Lemma replaceEntries_show_expanded entries :
  Forall (fun e => plainKey e.1 = true
                   /\ contextFree (ToString e.2) = true
                   /\ loneBraces (expansion (ToString e.2)) = true) entries ->
  forall toks,
    Forall (fun tok => wellFormedToken tok = true) toks ->
    replaceEntries ToString entries (show toks)
    = Some (specSubstitute (map (fun e => (e.1, expansion (ToString e.2))) entries) toks).
Proof.
  induction 1 as [|[key value] entries (Hkey & Hfree & Hlone) _ IH]; intros toks Htoks.
  - cbn. now rewrite specSubstitute_nil.
  - cbn [replaceEntries map fst snd] in *. unfold replacePlaceholder. rewrite Hkey.
    rewrite replaceScan_show_expanded by (auto using plainKey_braceFree).
    rewrite IH by (now apply bindSlot_loneBraces).
    now rewrite specSubstitute_bindSlot.
Qed.

(** X2: a value with dollar signs is substituted with every pair [$$]
    collapsed to one dollar sign and every other dollar sign kept,
    provided no dollar sign of it is followed by [&], a backquote or a
    quote: on a well-formed template chat submits the template with
    each slot of a context key filled by this expansion of the value. *)
Theorem chat_collapses_dollar_pairs st messages M ctx entries toks :
  arrays st !! messages = Some M ->
  objects st !! ctx = Some entries ->
  Forall (fun e => plainKey e.1 = true
                   /\ contextFree (ToString e.2) = true
                   /\ loneBraces (expansion (ToString e.2)) = true) entries ->
  Forall (fun tok => wellFormedToken tok = true) toks ->
  systemPrompt agentConfig = show toks ->
  exists events,
    trace (chat messages (Some ctx) st).2 = trace st ++ events
    /\ map rq_system (requestsOf events)
       = [specSubstitute (map (fun e => (e.1, expansion (ToString e.2))) entries) toks].
Proof.
  intros HM Hctx Hentries Htoks Htemplate.
  pose proof (replaceEntries_show_expanded entries Hentries toks Htoks) as Hp.
  rewrite <- Htemplate in Hp.
  destruct (chat_submits st messages M (Some ctx) _ HM
              (buildSystemPrompt_some ToString agentConfig _ _ _ _ Hctx Hp))
    as (events & Htrace & Hreq).
  exists events. split; [exact Htrace|]. now rewrite Hreq.
Qed.

(** X3: a value that consists of n dollar signs reaches the prompt as
    the half of them, rounded up. *)
Theorem chat_halves_dollar_signs st messages M ctx key value n toks :
  arrays st !! messages = Some M ->
  objects st !! ctx = Some [(key, value)] ->
  plainKey key = true ->
  ToString value = dollars n ->
  Forall (fun tok => wellFormedToken tok = true) toks ->
  systemPrompt agentConfig = show toks ->
  exists events,
    trace (chat messages (Some ctx) st).2 = trace st ++ events
    /\ map rq_system (requestsOf events)
       = [specSubstitute [(key, dollars ((n + 1) / 2))] toks].
Proof.
  intros HM Hctx Hkey Hvalue Htoks Htemplate.
  destruct (dollars_cases n) as [[Hfree Hexp] _].
  assert (Hentries :
            Forall (fun e => plainKey e.1 = true
                             /\ contextFree (ToString e.2) = true
                             /\ loneBraces (expansion (ToString e.2)) = true)
                   [(key, value)]).
  { constructor; [|constructor]. cbn [fst snd]. rewrite Hvalue, Hexp.
    auto using dollars_loneBraces. }
  pose proof (replaceEntries_show_expanded _ Hentries toks Htoks) as Hp.
  cbn [map fst snd] in Hp. rewrite Hvalue, Hexp, <- Htemplate in Hp.
  destruct (chat_submits st messages M (Some ctx) _ HM
              (buildSystemPrompt_some ToString agentConfig _ _ _ _ Hctx Hp))
    as (events & Htrace & Hreq).
  exists events. split; [exact Htrace|]. now rewrite Hreq.
Qed.

(** X4: the order in which the context lists its keys does not matter
    when the template is literal text whose opening braces stand alone
    and placeholders with brace-free names, the keys of the context are
    distinct and free of pattern syntax characters, and the text of
    every value has no dollar sign and has after each of its opening
    braces a character other than an opening brace (so no value ends
    with an opening brace): two contexts with the same such entries in
    different orders make chat submit the same request. *)
Theorem chat_prompt_order_irrelevant st st' messages M ctx entries entries' toks :
  arrays st !! messages = Some M ->
  arrays st' !! messages = Some M ->
  objects st !! ctx = Some entries ->
  objects st' !! ctx = Some entries' ->
  Permutation entries entries' ->
  NoDup (map fst entries) ->
  Forall (fun e => plainKey e.1 = true /\ inertValue (ToString e.2) = true) entries ->
  Forall (fun tok => wellFormedToken tok = true) toks ->
  systemPrompt agentConfig = show toks ->
  exists events events',
    trace (chat messages (Some ctx) st).2 = trace st ++ events
    /\ trace (chat messages (Some ctx) st').2 = trace st' ++ events'
    /\ requestsOf events = requestsOf events'.
Proof.
  intros HM HM' Hctx Hctx' Hperm Hnodup Hentries Htoks Htemplate.
  assert (Hentries' :
            Forall (fun e => plainKey e.1 = true /\ inertValue (ToString e.2) = true)
                   entries') by now rewrite <- Hperm.
  pose proof (replaceEntries_show ToString entries Hentries toks Htoks) as Hp.
  pose proof (replaceEntries_show ToString entries' Hentries' toks Htoks) as Hp'.
  rewrite <- (specSubstitute_permutation
                (map (fun e => (e.1, ToString e.2)) entries)
                (map (fun e => (e.1, ToString e.2)) entries')) in Hp'.
  - rewrite <- Htemplate in Hp, Hp'.
    destruct (chat_submits st messages M (Some ctx) _ HM
                (buildSystemPrompt_some ToString agentConfig _ _ _ _ Hctx Hp))
      as (events & Htrace & Hreq).
    destruct (chat_submits st' messages M (Some ctx) _ HM'
                (buildSystemPrompt_some ToString agentConfig _ _ _ _ Hctx' Hp'))
      as (events' & Htrace' & Hreq').
    exists events, events'. repeat split; [exact Htrace | exact Htrace' | congruence].
  - now apply Permutation_map.
  - rewrite map_map. cbn [fst]. exact Hnodup.
Qed.

End Properties.
End PromptFacts.

Module ContinuationFacts.
Import Agent AgentFacts PromptFacts.

Section Properties.

Context {Value Err : Type}.
Variable ToString : Value -> string.
Variable JSON_stringify : Value -> option string.
Variable agentConfig : AgentConfig.
Variable toolDefinitions : list (ToolDefinition Value).
Variable messages_create : Request Value -> Response Value + Err.
Variable messages_stream : Request Value -> list StreamEvent * option Err.

Local Abbreviation chat := (Agent.chat ToString agentConfig toolDefinitions messages_create).
Local Abbreviation buildSystemPrompt := (Agent.buildSystemPrompt (Err:=Err) ToString agentConfig).
Local Abbreviation chatRequest := (Agent.chatRequest agentConfig toolDefinitions).
Local Abbreviation streamRequest := (Agent.streamRequest (Value:=Value) agentConfig).
Local Abbreviation streamChat := (Agent.streamChat ToString agentConfig messages_stream).
Local Abbreviation continueWithToolResult :=
  (Agent.continueWithToolResult ToString JSON_stringify agentConfig toolDefinitions
                                messages_create).
Local Abbreviation toolResultMessage := (Agent.toolResultMessage JSON_stringify).

Implicit Types st : State Value Err.
Implicit Types M : list (ChatMessage Value).

Lemma continueWithToolResult_unfold st messages M toolCall toolResult ctx :
  arrays st !! messages = Some M ->
  continueWithToolResult messages toolCall toolResult ctx st
  = chat (fresh (dom (arrays st))) ctx
         (mkState (<[fresh (dom (arrays st)) :=
                       M ++ [toolUseMessage toolCall; toolResultMessage toolCall toolResult]]>
                     (arrays st))
                  (objects st) (trace st)).
Proof.
  intros HM. unfold Agent.continueWithToolResult.
  unfold bind at 1. unfold readArray at 1. rewrite HM. reflexivity.
Qed.

Lemma continueWithToolResult_keeps_inputs st messages M toolCall toolResult ctx :
  arrays st !! messages = Some M ->
  arrays (continueWithToolResult messages toolCall toolResult ctx st).2 !! messages = Some M
  /\ objects (continueWithToolResult messages toolCall toolResult ctx st).2 = objects st.
Proof.
  intros HM.
  assert (Hfresh : arrays st !! fresh (dom (arrays st)) = None)
    by (apply not_elem_of_dom, is_fresh).
  rewrite (continueWithToolResult_unfold st messages M toolCall toolResult ctx HM).
  match goal with
  | |- context [chat ?l ctx ?s] =>
      destruct (chat_frame ToString agentConfig toolDefinitions messages_create s l ctx)
        as [Harr Hobj]
  end.
  rewrite Harr, Hobj. cbn [arrays objects]. split; [|reflexivity].
  rewrite lookup_insert_ne; [exact HM|].
  intros Heq. rewrite Heq in Hfresh. congruence.
Qed.

(** X5: the continuation writes to nothing the caller holds: every
    array and every object that the store held before the call is
    there after it, unchanged, whatever the context and the backend do;
    the caller's message list does not grow. *)
Theorem continueWithToolResult_writes_nothing_held
        st messages toolCall toolResult ctx :
  arrays st ⊆ arrays (continueWithToolResult messages toolCall toolResult ctx st).2
  /\ objects (continueWithToolResult messages toolCall toolResult ctx st).2 = objects st
  /\ arrays (continueWithToolResult messages toolCall toolResult ctx st).2 !! messages
     = arrays st !! messages.
Proof.
  destruct (arrays st !! messages) as [M|] eqn:HM.
  - assert (Hfresh : arrays st !! fresh (dom (arrays st)) = None)
      by (apply not_elem_of_dom, is_fresh).
    rewrite (continueWithToolResult_unfold st messages M toolCall toolResult ctx HM).
    match goal with
    | |- context [chat ?l ctx ?s] =>
        destruct (chat_frame ToString agentConfig toolDefinitions messages_create s l ctx)
          as [Harr Hobj]
    end.
    rewrite Harr, Hobj. cbn [arrays objects].
    split; [now apply insert_subseteq|]. split; [reflexivity|].
    rewrite lookup_insert_ne; [exact HM|].
    intros Heq. rewrite Heq in Hfresh. congruence.
  - unfold Agent.continueWithToolResult, bind, readArray. rewrite HM.
    cbn. split; [reflexivity|]. split; [reflexivity | exact HM].
Qed.

(** X6: the continuation keeps no history of its own: after one
    continuation on a message list, the one request of a second
    continuation on the same list has as its messages the list followed
    by the second exchange only; the first tool call and its result are
    not among them. *)
Theorem continueWithToolResult_forgets_earlier_exchange
        st messages M call1 result1 call2 result2 ctx p :
  arrays st !! messages = Some M ->
  buildSystemPrompt ctx st = (Returned p, st) ->
  exists events,
    trace (continueWithToolResult messages call2 result2 ctx
             (continueWithToolResult messages call1 result1 ctx st).2).2
    = trace (continueWithToolResult messages call1 result1 ctx st).2 ++ events
    /\ requestsOf events
       = [chatRequest p (M ++ [toolUseMessage call2; toolResultMessage call2 result2])]
    /\ map rq_messages (requestsOf events)
       = [M ++ [mkChatMessage assistant
                  (Parts [ToolUsePart (tc_id call2) (tc_name call2) (tc_input call2)]);
                mkChatMessage user
                  (Parts [ToolResultPart (tc_id call2) (JSON_stringify result2)])]]
    /\ map rq_system (requestsOf events) = [p].
Proof.
  intros HM Hp.
  destruct (continueWithToolResult_keeps_inputs st messages M call1 result1 ctx HM)
    as (HM1 & Hobj1).
  set (st1 := (continueWithToolResult messages call1 result1 ctx st).2) in *.
  rewrite (continueWithToolResult_unfold st1 messages M call2 result2 ctx HM1).
  match goal with
  | |- context [chat ?l ctx ?s] =>
      destruct (chat_submits ToString agentConfig toolDefinitions messages_create
                  s l (M ++ [toolUseMessage call2; toolResultMessage call2 result2]) ctx p)
        as (events & Htrace & Hreq)
  end.
  - apply lookup_insert_eq.
  - apply (buildSystemPrompt_transfer ToString agentConfig st); [|exact Hp].
    cbn [objects]. exact Hobj1.
  - exists events. split; [exact Htrace|]. split; [exact Hreq|].
    rewrite Hreq. split; reflexivity.
Qed.

End Properties.
End ContinuationFacts.

Module StreamFacts.
Import Agent AgentFacts.

Section Properties.

Context {Value Err : Type}.
Variable ToString : Value -> string.
Variable agentConfig : AgentConfig.
Variable messages_stream : Request Value -> list StreamEvent * option Err.

Local Abbreviation buildSystemPrompt := (Agent.buildSystemPrompt (Err:=Err) ToString agentConfig).
Local Abbreviation streamRequest := (Agent.streamRequest (Value:=Value) agentConfig).
Local Abbreviation streamChat := (Agent.streamChat ToString agentConfig messages_stream).

Implicit Types st : State Value Err.
Implicit Types M : list (ChatMessage Value).

(** X7: when the stream breaks off, streamChat has yielded the text of
    every text delta received before the break, then throws the value
    the stream threw; unlike chat it writes nothing to the console, and
    it leaves the store as it was. *)
Theorem streamChat_yields_before_it_throws st messages M ctx p events e :
  arrays st !! messages = Some M ->
  buildSystemPrompt ctx st = (Returned p, st) ->
  messages_stream (streamRequest p M) = (events, Some e) ->
  streamChat messages ctx st
  = (omap yieldOf events, Thrown e,
     mkState (arrays st) (objects st) (trace st ++ [Stream (streamRequest p M)])).
Proof.
  intros HM Hp Hbreak.
  rewrite (streamChat_run ToString agentConfig messages_stream st messages M ctx p HM Hp).
  now rewrite Hbreak.
Qed.

End Properties.
End StreamFacts.

Module TriggerFacts.
Import Utf16 EscalationFacts Agent.

Lemma includes_empty (s : ustring) : includes s [] = true.
Proof. destruct s; reflexivity. Qed.

(** X8: for text whose code units lie below U+0100, a message that
    escalates still escalates when such text is put before or after
    it. *)
Theorem shouldEscalate_extends
        (toLowerCase : LowerCase) (agentConfig : AgentConfig)
        (before message after : ustring) :
  Forall latin1 before ->
  Forall latin1 message ->
  Forall latin1 after ->
  shouldEscalate agentConfig toLowerCase message = true ->
  shouldEscalate agentConfig toLowerCase (before ++ message ++ after) = true.
Proof.
  intros Hbefore Hmessage Hafter. unfold shouldEscalate.
  rewrite !existsb_exists.
  rewrite (lower_latin1 toLowerCase message Hmessage).
  rewrite (lower_latin1 toLowerCase (before ++ message ++ after))
    by (repeat apply Forall_app_2; assumption).
  intros (trigger & Hin & H). exists trigger. split; [exact Hin|].
  apply includes_occurs in H as (a & b & H).
  apply includes_occurs.
  exists (map lowerLatin1 before ++ a), (b ++ map lowerLatin1 after).
  rewrite !map_app, H, <- !app_assoc. reflexivity.
Qed.

(** X9: an empty trigger phrase makes every message escalate. *)
Theorem shouldEscalate_empty_trigger
        (toLowerCase : LowerCase) (agentConfig : AgentConfig) (message : ustring) :
  In [] (escalationTriggers agentConfig) ->
  shouldEscalate agentConfig toLowerCase message = true.
Proof.
  intros Hin. unfold shouldEscalate. apply existsb_exists.
  exists []. split; [exact Hin|]. rewrite lower_empty. apply includes_empty.
Qed.

(** X10: the empty message escalates exactly when some trigger phrase
    is empty. *)
Theorem shouldEscalate_empty_message
        (toLowerCase : LowerCase) (agentConfig : AgentConfig) :
  shouldEscalate agentConfig toLowerCase [] = true
  <-> In [] (escalationTriggers agentConfig).
Proof.
  unfold shouldEscalate. rewrite existsb_exists, lower_empty. split.
  - intros (trigger & Hin & H). cbn in H. rewrite orb_false_r in H.
    destruct (lower toLowerCase trigger) eqn:E; [|discriminate].
    apply lower_nonempty in E. now subst trigger.
  - intros Hin. exists []. split; [exact Hin|].
    rewrite lower_empty. reflexivity.
Qed.

End TriggerFacts.

Module CompletionFacts.
Import Onboarding OnboardingFacts.

Section Properties.

Context {Data Err : Type}.
Variable accepts : list (Configuration Data) -> Configuration Data -> bool.
Variable toISOString : nat -> string.
Variable fetch : ProvisionBody Data -> option Err.

Local Abbreviation completeOnboarding :=
  (Onboarding.completeOnboarding Data Err accepts toISOString fetch).

Implicit Types w : World Data.

(** X11: when the table refuses the configuration, completeOnboarding
    stores nothing and still posts the provisioning request; what it
    reports to its caller is the outcome of the post alone. *)
Theorem completeOnboarding_provisions_unsaved_configuration userId flowId allData w :
  accepts (agent_configurations w)
          (mkConfiguration userId flowId allData "active" (toISOString (clockReadings w)))
  = false ->
  agent_configurations (completeOnboarding userId flowId allData w).2
  = agent_configurations w
  /\ provisionRequests (completeOnboarding userId flowId allData w).2
     = provisionRequests w ++ [mkProvisionBody userId flowId allData]
  /\ (completeOnboarding userId flowId allData w).1
     = fetch (mkProvisionBody userId flowId allData).
Proof.
  intros Hrefused.
  unfold Onboarding.completeOnboarding, readClock, postProvision, insert.
  cbn. rewrite Hrefused. repeat split; reflexivity.
Qed.

(** X12: when the provisioning request fails, completeOnboarding throws
    the failure and the configuration it has stored stays stored, with
    status active. *)
Theorem completeOnboarding_keeps_configuration_on_failure
        userId flowId allData w e :
  accepts (agent_configurations w)
          (mkConfiguration userId flowId allData "active" (toISOString (clockReadings w)))
  = true ->
  fetch (mkProvisionBody userId flowId allData) = Some e ->
  (completeOnboarding userId flowId allData w).1 = Some e
  /\ agent_configurations (completeOnboarding userId flowId allData w).2
     = agent_configurations w
       ++ [mkConfiguration userId flowId allData "active" (toISOString (clockReadings w))].
Proof.
  intros Haccepted Hfail.
  unfold Onboarding.completeOnboarding, readClock, postProvision, insert.
  cbn. rewrite Haccepted, Hfail. split; reflexivity.
Qed.

End Properties.
End CompletionFacts.

Module ProgressFacts.
Import Progress.

Lemma imap_snoc {A B} (f : nat -> A -> B) (l : list A) (x : A) :
  imap f (l ++ [x]) = imap f l ++ [f (length l) x].
Proof.
  rewrite imap_app. cbn. now rewrite Nat.add_0_r.
Qed.

Lemma circles_shape (count : nat) (currentStep : Z) (steps : list Step) :
  (0 <= currentStep)%Z ->
  map circle (imap (renderStep count currentStep) steps)
  = replicate (Z.to_nat currentStep `min` length steps) "bg-green-500 text-white"
    ++ (if (Z.to_nat currentStep <? length steps)%nat
        then "bg-blue-500 text-white"
             :: replicate (length steps - Z.to_nat currentStep - 1)
                          "bg-gray-200 text-gray-500"
        else []).
Proof.
  intros Hcs. induction steps as [|step steps IH] using rev_ind.
  - cbn. now rewrite Nat.min_0_r.
  - rewrite imap_snoc, map_app, IH, length_app. cbn [map length circle renderStep].
    set (k := Z.to_nat currentStep) in *. set (n := length steps) in *.
    destruct (Z.ltb_spec (Z.of_nat n) currentStep) as [Hlt|Hge].
    + assert (n < k)%nat by lia.
      destruct (Nat.ltb_spec k n); [lia|].
      destruct (Nat.ltb_spec k (n + 1)); [lia|].
      rewrite !app_nil_r.
      replace (k `min` n) with n by lia.
      replace (k `min` (n + 1)) with (S n) by lia.
      now rewrite replicate_S_end.
    + destruct (Z.eqb_spec (Z.of_nat n) currentStep) as [Heq|Hne].
      * assert (n = k) by lia.
        destruct (Nat.ltb_spec k n); [lia|].
        destruct (Nat.ltb_spec k (n + 1)); [|lia].
        rewrite app_nil_r.
        replace (k `min` n) with k by lia.
        replace (k `min` (n + 1)) with k by lia.
        replace (n + 1 - k - 1) with 0 by lia. reflexivity.
      * assert (k < n)%nat by lia.
        destruct (Nat.ltb_spec k n); [|lia].
        destruct (Nat.ltb_spec k (n + 1)); [|lia].
        replace (k `min` n) with k by lia.
        replace (k `min` (n + 1)) with k by lia.
        replace (n + 1 - k - 1) with (S (n - k - 1)) by lia.
        rewrite replicate_S_end, <- app_assoc. reflexivity.
Qed.

(** X13: for a current step that is not negative, the circles of the
    progress bar are, from the left: one completed circle for every step
    before the current one, the current circle if the current step is a
    step of the flow, and a pending circle for every step after it. *)
Theorem ProgressBar_circles (steps : list Step) (currentStep : Z) :
  (0 <= currentStep)%Z ->
  map circle (ProgressBar steps currentStep)
  = replicate (Z.to_nat currentStep `min` length steps) "bg-green-500 text-white"
    ++ (if (Z.to_nat currentStep <? length steps)%nat
        then "bg-blue-500 text-white"
             :: replicate (length steps - Z.to_nat currentStep - 1)
                          "bg-gray-200 text-gray-500"
        else []).
Proof. intros Hcs. now apply circles_shape. Qed.

Lemma connectors_count (count : nat) (currentStep : Z) (steps : list Step) :
  length (omap connector (imap (renderStep count currentStep) steps))
  = length steps `min` (count - 1).
Proof.
  induction steps as [|step steps IH] using rev_ind; [reflexivity|].
  rewrite imap_snoc, omap_app, !length_app, IH.
  cbn [omap list_omap connector renderStep length].
  destruct (Z.ltb_spec (Z.of_nat (length steps)) (Z.of_nat count - 1)); cbn [length]; lia.
Qed.

(** X14: the progress bar draws a bar after every step but the last; a
    circle holds the check mark exactly when it is a completed circle,
    and the bar after a step is green exactly when the step is
    completed. *)
Theorem ProgressBar_connectors (steps : list Step) (currentStep : Z) :
  length (omap connector (ProgressBar steps currentStep)) = length steps - 1
  /\ forall i view,
      ProgressBar steps currentStep !! i = Some view ->
      (is_Some (connector view) <-> S i < length steps)
      /\ (label view = Check <-> circle view = "bg-green-500 text-white")
      /\ (forall colour,
             connector view = Some colour ->
             (colour = "bg-green-500" <-> label view = Check)).
Proof.
  split.
  - unfold ProgressBar. rewrite connectors_count. lia.
  - intros i view Hview.
    unfold ProgressBar in Hview. rewrite list_lookup_imap in Hview.
    destruct (steps !! i) as [step|] eqn:Hstep; [|discriminate].
    apply lookup_lt_Some in Hstep.
    cbn in Hview. injection Hview as <-.
    cbn [label circle connector renderStep].
    split.
    { destruct (Z.ltb_spec (Z.of_nat i) (Z.of_nat (length steps) - 1)).
      - split; [lia | eauto].
      - split; [intros [? ?]; discriminate | lia]. }
    destruct (Z.ltb_spec (Z.of_nat i) currentStep).
    + split; [split; reflexivity|].
      intros colour Hc. destruct (Z.of_nat i <? Z.of_nat (length steps) - 1)%Z;
        [|discriminate].
      injection Hc as <-. split; reflexivity.
    + split.
      * split; [discriminate|].
        destruct (Z.of_nat i =? currentStep)%Z; discriminate.
      * intros colour Hc. destruct (Z.of_nat i <? Z.of_nat (length steps) - 1)%Z;
          [|discriminate].
        injection Hc as <-. split; discriminate.
Qed.

End ProgressFacts.

Module Checks.
Import Template Pattern Agent PromptFacts ContinuationFacts StreamFacts TriggerFacts
       CompletionFacts ProgressFacts.

(** X1, witness: a prompt without placeholders and a context with a
    key. *)
Lemma chat_prompt_unchanged_by_unused_keys_witness :
  exists events,
    trace (chat Host.ToString (Host.config "Be brief.") [] (Host.answers Host.textAnswer)
                0 (Some 1) (Host.store Host.hello Host.acme)).2
    = [] ++ events
    /\ map rq_system (requestsOf events) = ["Be brief."].
Proof.
  apply (chat_prompt_unchanged_by_unused_keys Host.ToString (Host.config "Be brief.") []
           (Host.answers Host.textAnswer) (Host.store Host.hello Host.acme)
           0 Host.hello 1 Host.acme).
  - reflexivity.
  - reflexivity.
  - repeat constructor.
Defined.

(** X2, witness: a rate of [$75] and a tier of three dollar signs. *)
Lemma chat_collapses_dollar_pairs_witness :
  exists events,
    trace (chat Host.ToString (Host.config (show Cases.rates)) []
                (Host.answers Host.textAnswer)
                0 (Some 1) (Host.store Host.hello Cases.priced)).2
    = [] ++ events
    /\ map rq_system (requestsOf events) = ["Rate: $75/hour, tier $$"].
Proof.
  apply (chat_collapses_dollar_pairs Host.ToString (Host.config (show Cases.rates)) []
           (Host.answers Host.textAnswer) (Host.store Host.hello Cases.priced)
           0 Host.hello 1 Cases.priced Cases.rates).
  - reflexivity.
  - reflexivity.
  - repeat constructor.
  - repeat constructor.
  - reflexivity.
Defined.

(** X3, witness: three dollar signs. *)
Lemma chat_halves_dollar_signs_witness :
  exists events,
    trace (chat Host.ToString (Host.config (show Host.priceTier)) []
                (Host.answers Host.textAnswer)
                0 (Some 1) (Host.store Host.hello Host.threeDollars)).2
    = [] ++ events
    /\ map rq_system (requestsOf events) = ["Price tier: $$"].
Proof.
  apply (chat_halves_dollar_signs Host.ToString (Host.config (show Host.priceTier)) []
           (Host.answers Host.textAnswer) (Host.store Host.hello Host.threeDollars)
           0 Host.hello 1 "price_tier" (Host.Prim (Host.Str "$$$")) 3 Host.priceTier).
  - reflexivity.
  - reflexivity.
  - reflexivity.
  - reflexivity.
  - repeat constructor.
  - reflexivity.
Defined.

(** X4, witness: the two keys of a context in either order. *)
Lemma chat_prompt_order_irrelevant_witness :
  exists events events',
    trace (chat Host.ToString (Host.config (show Host.profile)) []
                (Host.answers Host.textAnswer)
                0 (Some 1) (Host.store Host.hello Cases.trade)).2
    = [] ++ events
    /\ trace (chat Host.ToString (Host.config (show Host.profile)) []
                   (Host.answers Host.textAnswer)
                   0 (Some 1) (Host.store Host.hello Cases.tradeReversed)).2
       = [] ++ events'
    /\ requestsOf events = requestsOf events'.
Proof.
  apply (chat_prompt_order_irrelevant Host.ToString (Host.config (show Host.profile)) []
           (Host.answers Host.textAnswer)
           (Host.store Host.hello Cases.trade) (Host.store Host.hello Cases.tradeReversed)
           0 Host.hello 1 Cases.trade Cases.tradeReversed Host.profile).
  - reflexivity.
  - reflexivity.
  - reflexivity.
  - reflexivity.
  - apply perm_swap.
  - apply NoDup_cons. split; [|apply NoDup_singleton].
    intros H. apply list_elem_of_singleton in H. discriminate.
  - repeat constructor.
  - repeat constructor.
  - reflexivity.
Defined.

(** X6, witness: two continuations on the same list. *)
Lemma continueWithToolResult_forgets_earlier_exchange_witness :
  exists events,
    trace (continueWithToolResult Host.ToString Host.JSON_stringify
             (Host.config "Be brief.") [Host.lookupTool] (Host.answers Host.textAnswer)
             0 Cases.secondCall (Host.Prim Host.Null) None
             (continueWithToolResult Host.ToString Host.JSON_stringify
                (Host.config "Be brief.") [Host.lookupTool] (Host.answers Host.textAnswer)
                0 Host.lookupCall (Host.Prim (Host.Str "found")) None
                (Host.store Host.hello [])).2).2
    = trace (continueWithToolResult Host.ToString Host.JSON_stringify
               (Host.config "Be brief.") [Host.lookupTool] (Host.answers Host.textAnswer)
               0 Host.lookupCall (Host.Prim (Host.Str "found")) None
               (Host.store Host.hello [])).2
      ++ events
    /\ requestsOf events
       = [chatRequest (Host.config "Be brief.") [Host.lookupTool] "Be brief."
            (Host.hello
             ++ [toolUseMessage Cases.secondCall;
                 toolResultMessage Host.JSON_stringify Cases.secondCall
                                   (Host.Prim Host.Null)])]
    /\ map rq_messages (requestsOf events)
       = [[mkChatMessage user (Text "Hello");
           mkChatMessage assistant
             (Parts [ToolUsePart "toolu_2" "lookup" (Host.Object [("id", Host.Str "43")])]);
           mkChatMessage user (Parts [ToolResultPart "toolu_2" (Some "null")])]]
    /\ map rq_system (requestsOf events) = ["Be brief."].
Proof.
  apply (continueWithToolResult_forgets_earlier_exchange
           Host.ToString Host.JSON_stringify (Host.config "Be brief.") [Host.lookupTool]
           (Host.answers Host.textAnswer) (Host.store Host.hello [])
           0 Host.hello Host.lookupCall (Host.Prim (Host.Str "found"))
           Cases.secondCall (Host.Prim Host.Null) None "Be brief.").
  - reflexivity.
  - reflexivity.
Defined.

(** X7, witness: a stream that breaks after its first text delta. *)
Lemma streamChat_yields_before_it_throws_witness :
  streamChat Host.ToString (Host.config "Be brief.")
             (Cases.breaks [MessageStart; ContentBlockStart 0;
                            ContentBlockDelta 0 (TextDelta "Hel")] "ECONNRESET")
             0 None (Host.store Host.hello [])
  = (["Hel"], Thrown "ECONNRESET",
     mkState (arrays (Host.store Host.hello [])) (objects (Host.store Host.hello []))
             (trace (Host.store Host.hello [])
              ++ [Stream (streamRequest (Host.config "Be brief.") "Be brief." Host.hello)])).
Proof.
  apply (streamChat_yields_before_it_throws Host.ToString (Host.config "Be brief.")
           (Cases.breaks [MessageStart; ContentBlockStart 0;
                          ContentBlockDelta 0 (TextDelta "Hel")] "ECONNRESET")
           (Host.store Host.hello []) 0 Host.hello None "Be brief."
           [MessageStart; ContentBlockStart 0; ContentBlockDelta 0 (TextDelta "Hel")]
           "ECONNRESET").
  - reflexivity.
  - reflexivity.
  - reflexivity.
Defined.

(** X8, witness: a message that is quoted in a longer one. *)
Lemma shouldEscalate_extends_witness :
  shouldEscalate (Host.config "") HostFacts.lowerCase
                 (Utf16.units "She wrote: "
                  ++ Utf16.units "I want to speak to a manager"
                  ++ Utf16.units " - twice.")
  = true.
Proof.
  apply (shouldEscalate_extends HostFacts.lowerCase (Host.config "")
           (Utf16.units "She wrote: ") (Utf16.units "I want to speak to a manager")
           (Utf16.units " - twice.")).
  - repeat constructor.
  - repeat constructor.
  - repeat constructor.
  - reflexivity.
Defined.

(** Outside that range the extension can undo a match: a capital sigma
    alone matches the trigger sigma, and after a capital alpha it
    lower-cases to the final sigma and matches no longer. *)
Example shouldEscalate_extension_final_sigma :
  shouldEscalate (mkAgentConfig "" "claude-sonnet-4-20250514" [[0x3C3]%N])
                 HostFacts.lowerCase [0x3A3]%N
  = true
  /\ shouldEscalate (mkAgentConfig "" "claude-sonnet-4-20250514" [[0x3C3]%N])
                    HostFacts.lowerCase ([0x391]%N ++ [0x3A3]%N ++ [])
     = false.
Proof. split; reflexivity. Qed.

(** X9, witness: a trigger list with an empty phrase. *)
Lemma shouldEscalate_empty_trigger_witness :
  shouldEscalate (mkAgentConfig "" "claude-sonnet-4-20250514" [Utf16.units "manager"; []])
                 HostFacts.lowerCase (Utf16.units "just checking in")
  = true.
Proof.
  apply (shouldEscalate_empty_trigger HostFacts.lowerCase
           (mkAgentConfig "" "claude-sonnet-4-20250514" [Utf16.units "manager"; []])
           (Utf16.units "just checking in")).
  right. left. reflexivity.
Defined.

(** X11, witness: a flow that is completed already, on a table that
    holds one configuration for a user and flow. *)
Lemma completeOnboarding_provisions_unsaved_configuration_witness :
  Onboarding.agent_configurations
    (Onboarding.completeOnboarding Host.Data Host.Err Cases.oneEach Host.clock Host.reachable
       "user-1" "construction-rfq" Host.acmeData Cases.completedWorld).2
  = Onboarding.agent_configurations Cases.completedWorld
  /\ Onboarding.provisionRequests
       (Onboarding.completeOnboarding Host.Data Host.Err Cases.oneEach Host.clock
          Host.reachable "user-1" "construction-rfq" Host.acmeData Cases.completedWorld).2
     = Onboarding.provisionRequests Cases.completedWorld
       ++ [Onboarding.mkProvisionBody "user-1" "construction-rfq" Host.acmeData]
  /\ (Onboarding.completeOnboarding Host.Data Host.Err Cases.oneEach Host.clock
        Host.reachable "user-1" "construction-rfq" Host.acmeData Cases.completedWorld).1
     = Host.reachable (Onboarding.mkProvisionBody "user-1" "construction-rfq" Host.acmeData).
Proof.
  apply (completeOnboarding_provisions_unsaved_configuration
           Cases.oneEach Host.clock Host.reachable
           "user-1" "construction-rfq" Host.acmeData Cases.completedWorld).
  reflexivity.
Defined.

(** X12, witness: a provisioning endpoint that cannot be reached. *)
Lemma completeOnboarding_keeps_configuration_on_failure_witness :
  (Onboarding.completeOnboarding Host.Data Host.Err Host.anyRow Host.clock
     (Cases.unreachable "Failed to fetch")
     "user-1" "construction-rfq" Host.acmeData Host.emptyWorld).1
  = Some "Failed to fetch"
  /\ Onboarding.agent_configurations
       (Onboarding.completeOnboarding Host.Data Host.Err Host.anyRow Host.clock
          (Cases.unreachable "Failed to fetch")
          "user-1" "construction-rfq" Host.acmeData Host.emptyWorld).2
     = Onboarding.agent_configurations Host.emptyWorld
       ++ [Onboarding.mkConfiguration "user-1" "construction-rfq" Host.acmeData "active"
             (Host.clock (Onboarding.clockReadings Host.emptyWorld))].
Proof.
  apply (completeOnboarding_keeps_configuration_on_failure
           Host.anyRow Host.clock (Cases.unreachable "Failed to fetch")
           "user-1" "construction-rfq" Host.acmeData Host.emptyWorld "Failed to fetch").
  - reflexivity.
  - reflexivity.
Defined.

(** X13, witness: the five steps of the template with the third one
    current. *)
Lemma ProgressBar_circles_witness :
  map Progress.circle (Progress.ProgressBar Cases.fiveSteps 2)
  = ["bg-green-500 text-white"; "bg-green-500 text-white"; "bg-blue-500 text-white";
     "bg-gray-200 text-gray-500"; "bg-gray-200 text-gray-500"].
Proof.
  apply (ProgressBar_circles Cases.fiveSteps 2). lia.
Defined.

End Checks.
